(** * run_capsule: per-session GLM inputs and their dropout variants

    A shallow embedding of [code/run_capsule.py]: the parameter record
    [AppParams], the merging of command-line values with the JSON override
    map in [main], [process_session] with its full-model artifact and its
    loop over the dropout features, and the session loop of [main].

    The libraries the script drives ([io_utils], [utils.get_nwb], the
    session table) are collaborators: they are a class of functions the
    development is generic in.  What the script does to the outside is
    recorded as a trace of events, from which the results tree is read.
    The command line is taken as [parse_args] returns it.  The calls to the
    logger are left out: they change neither the files nor the control
    flow. *)

From Stdlib Require Import QArith Ascii.
From stdpp Require Import gmap strings list fin_maps.

Close Scope Q_scope.
Local Open Scope string_scope.
Local Open Scope list_scope.

(** ** Python values and exceptions *)

(** The values a parameter can hold: what argparse and [json.loads] hand to
    the fields of [AppParams], typed as the dataclass annotates them (lists
    are lists of names, dicts map names to numbers).  Numbers are carried,
    never computed on. *)
Inductive value : Type :=
| VNone
| VBool (b : bool)
| VNum (q : Q)
| VStr (s : string)
| VList (l : list string)
| VDict (d : list (string * Q)).

(** The exception classes the script meets.  [SystemExit] and
    [KeyboardInterrupt] derive from [BaseException] only. *)
Inductive exn : Type :=
| FileNotFoundError
| RecursionError
| KeyError (key : string)
| TypeError
| ValueError
| AssertionError
| InvalidIndexError
| SystemExit
| KeyboardInterrupt.

(** [isinstance(e, Exception)] *)
Definition is_Exception (e : exn) : bool :=
  match e with
  | SystemExit | KeyboardInterrupt => false
  | _ => true
  end.

Inductive result (A : Type) : Type :=
| Ok (a : A)
| Raise (e : exn).
Arguments Ok {A} a.
Arguments Raise {A} e.

(** Truth value of an object, as [or] and [if] test it. *)
Definition truthy (v : value) : bool :=
  match v with
  | VNone => false
  | VBool b => b
  | VNum q => negb (Qeq_bool q 0)
  | VStr s => negb (bool_decide (s = ""))
  | VList l => negb (bool_decide (l = []))
  | VDict d => match d with [] => false | _ => true end
  end.

(** [v is None] *)
Definition is_None (v : value) : bool :=
  match v with VNone => true | _ => false end.

(** The characters of a string, each as a string of length one. *)
Fixpoint chars (s : string) : list string :=
  match s with
  | EmptyString => []
  | String c rest => String c EmptyString :: chars rest
  end.

(** The items [set(v)] iterates over. *)
Definition iterate (v : value) : result (list string) :=
  match v with
  | VList l => Ok l
  | VStr s => Ok (chars s)
  | VDict d => Ok (d.*1)
  | VNone | VBool _ | VNum _ => Raise TypeError
  end.

(** [weight.split('_')[0]]: the prefix before the first underscore, the
    whole string when it has none. *)
Fixpoint group_token (w : string) : string :=
  match w with
  | EmptyString => EmptyString
  | String c rest =>
      if Ascii.eqb c "_"%char then EmptyString else String c (group_token rest)
  end.

(** [str.islower] on names of ASCII letters: some cased character, and no
    upper-case one.  The worlds of [Demo] use it for their structure names;
    in general the test is the one of the string library, a collaborator. *)
Definition is_upper (c : ascii) : bool :=
  let n := Ascii.nat_of_ascii c in (65 <=? n)%nat && (n <=? 90)%nat.
Definition is_lower (c : ascii) : bool :=
  let n := Ascii.nat_of_ascii c in (97 <=? n)%nat && (n <=? 122)%nat.
Fixpoint has_lower (s : string) : bool :=
  match s with
  | EmptyString => false
  | String c rest => is_lower c || has_lower rest
  end.
Fixpoint has_upper (s : string) : bool :=
  match s with
  | EmptyString => false
  | String c rest => is_upper c || has_upper rest
  end.
Definition ascii_islower (s : string) : bool :=
  has_lower s && negb (has_upper s).

(** Whether a string holds a ['/']. *)
Fixpoint has_slash (s : string) : bool :=
  match s with
  | EmptyString => false
  | String c rest => Ascii.eqb c "/"%char || has_slash rest
  end.

(** Whether a string holds a ['_']. *)
Fixpoint has_underscore (s : string) : bool :=
  match s with
  | EmptyString => false
  | String c rest => Ascii.eqb c "_"%char || has_underscore rest
  end.

(** ** Paths, as [pathlib] builds them

    A path is its root and its components.  [s.split('/')] first: *)
Fixpoint split_slash (s : string) : list string :=
  match s with
  | EmptyString => [EmptyString]
  | String c rest =>
      if Ascii.eqb c "/"%char then EmptyString :: split_slash rest
      else match split_slash rest with
           | [] => [String c EmptyString]
           | w :: ws => String c w :: ws
           end
  end.

(** The root of a POSIX path: ['/'] for one leading slash or for three and
    more, ['//'] for exactly two, none for a relative path. *)
Definition path_root (s : string) : string :=
  match s with
  | EmptyString => ""
  | String c1 r1 =>
      if Ascii.eqb c1 "/"%char then
        match r1 with
        | EmptyString => "/"
        | String c2 r2 =>
            if Ascii.eqb c2 "/"%char then
              match r2 with
              | EmptyString => "//"
              | String c3 _ => if Ascii.eqb c3 "/"%char then "/" else "//"
              end
            else "/"
        end
      else ""
  end.

(** The components of a path: the fields between the slashes, without the
    empty ones and the ['.'] ones. *)
Definition path_parts (s : string) : list string :=
  filter (λ c, c ≠ "" ∧ c ≠ ".") (split_slash s).

Record PurePath : Type := { p_root : string; p_parts : list string }.

(** [pathlib.Path(s)] *)
Definition Path (s : string) : PurePath :=
  {| p_root := path_root s; p_parts := path_parts s |}.

(** [p / key]: an absolute [key] replaces [p]. *)
Definition truediv (p : PurePath) (key : string) : PurePath :=
  if bool_decide (path_root key = "")
  then {| p_root := p_root p; p_parts := p_parts p ++ path_parts key |}
  else Path key.

Fixpoint join_slash (l : list string) : string :=
  match l with
  | [] => ""
  | [c] => c
  | c :: rest => c +:+ "/" +:+ join_slash rest
  end.

(** [str(p)] *)
Definition path_str (p : PurePath) : string :=
  if bool_decide (p_root p = "" ∧ p_parts p = []) then "."
  else p_root p +:+ join_slash (p_parts p).

(** A path that names a file right in [/results/full] or in
    [/results/reduced]: the directory and the file name. *)
Definition in_output_dir (p : PurePath) : option (string * string) :=
  match p_parts p with
  | [r; d; n] =>
      if bool_decide (p_root p = "/" ∧ r = "results"
                      ∧ (d = "full" ∨ d = "reduced") ∧ n ≠ "..")
      then Some ("/results/" +:+ d, n) else None
  | _ => None
  end.

(** ** Iteration order of a Python set

    [list(set(xs))] lists every element of [xs] once, in an order that
    depends on the hash seed of the process. *)
Record set_order : Type := SetOrder {
  set_iter :> list string → list string;
  set_iter_NoDup : ∀ xs, NoDup (set_iter xs);
  set_iter_elem : ∀ xs x, x ∈ set_iter xs ↔ x ∈ xs
}.

(** ** The data the script handles *)

(** [class AppParams] *)
Record AppParams : Type := {
  session_id : string;
  time_of_interest : value;
  spontaneous_duration : value;
  features_to_drop : value;
  input_variables : value;
  input_offsets : value;
  input_window_lengths : value;
  drop_variables : value;
  unit_inclusion_criteria : value;
  run_on_qc_units : value;
  spike_bin_width : value;
  areas_to_include : value;
  areas_to_exclude : value;
  orthogonalize_against_context : value;
  quiescent_start_time : value;
  quiescent_stop_time : value;
  trial_start_time : value;
  trial_stop_time : value;
  intercept : value
}.

(** [dataclasses.fields(AppParams)], by name. *)
Definition AppParams_fields : list string :=
  [ "session_id"; "time_of_interest"; "spontaneous_duration";
    "features_to_drop"; "input_variables"; "input_offsets";
    "input_window_lengths"; "drop_variables"; "unit_inclusion_criteria";
    "run_on_qc_units"; "spike_bin_width"; "areas_to_include";
    "areas_to_exclude"; "orthogonalize_against_context";
    "quiescent_start_time"; "quiescent_stop_time"; "trial_start_time";
    "trial_stop_time"; "intercept" ].

(** The fields of [AppParams(session_id=sid, **kw)]: a field without a
    keyword takes its default. *)
Definition AppParams_of (sid : string) (kw : gmap string value) : AppParams :=
  let get name dflt := default dflt (kw !! name) in
  {| session_id := sid;
     time_of_interest := get "time_of_interest" (VStr "quiescent");
     spontaneous_duration := get "spontaneous_duration" (VNum 120);
     features_to_drop := get "features_to_drop" VNone;
     input_variables := get "input_variables" VNone;
     input_offsets := get "input_offsets" (VBool true);
     input_window_lengths := get "input_window_lengths" VNone;
     drop_variables := get "drop_variables" VNone;
     unit_inclusion_criteria :=
       get "unit_inclusion_criteria"
         (VDict [ ("isi_violations", 0.1%Q); ("presence_ratio", 0.99%Q);
                  ("amplitude_cutoff", 0.1%Q); ("firing_rate", 1%Q) ]);
     run_on_qc_units := get "run_on_qc_units" (VBool false);
     spike_bin_width := get "spike_bin_width" (VNum 0.025);
     areas_to_include := get "areas_to_include" VNone;
     areas_to_exclude := get "areas_to_exclude" VNone;
     orthogonalize_against_context :=
       get "orthogonalize_against_context" (VList ["facial_features"]);
     quiescent_start_time := get "quiescent_start_time" (VNum (-1.5));
     quiescent_stop_time := get "quiescent_stop_time" (VNum 0);
     trial_start_time := get "trial_start_time" (VNum (-2));
     trial_stop_time := get "trial_stop_time" (VNum 3);
     intercept := get "intercept" (VBool true) |}.

(** [AppParams(session_id=sid, **kw)]: a keyword given twice, or a keyword
    that is no field, is a [TypeError]. *)
Definition AppParams_init (sid : string) (kw : gmap string value)
  : result AppParams :=
  if bool_decide ("session_id" ∈ dom kw) then Raise TypeError
  else if bool_decide (dom kw ⊆ list_to_set AppParams_fields)
  then Ok (AppParams_of sid kw)
  else Raise TypeError.

(** [dataclasses.asdict(app_params)] *)
Definition asdict (p : AppParams) : list (string * value) :=
  [ ("session_id", VStr (session_id p));
    ("time_of_interest", time_of_interest p);
    ("spontaneous_duration", spontaneous_duration p);
    ("features_to_drop", features_to_drop p);
    ("input_variables", input_variables p);
    ("input_offsets", input_offsets p);
    ("input_window_lengths", input_window_lengths p);
    ("drop_variables", drop_variables p);
    ("unit_inclusion_criteria", unit_inclusion_criteria p);
    ("run_on_qc_units", run_on_qc_units p);
    ("spike_bin_width", spike_bin_width p);
    ("areas_to_include", areas_to_include p);
    ("areas_to_exclude", areas_to_exclude p);
    ("orthogonalize_against_context", orthogonalize_against_context p);
    ("quiescent_start_time", quiescent_start_time p);
    ("quiescent_stop_time", quiescent_stop_time p);
    ("trial_start_time", trial_start_time p);
    ("trial_stop_time", trial_stop_time p);
    ("intercept", intercept p) ].

(** The four assignments of the test mode of [process_session]. *)
Definition test_params (p : AppParams) (areas : value) : AppParams :=
  {| session_id := session_id p;
     time_of_interest := VStr "full_trial";
     spontaneous_duration := spontaneous_duration p;
     features_to_drop := features_to_drop p;
     input_variables := input_variables p;
     input_offsets := input_offsets p;
     input_window_lengths := input_window_lengths p;
     drop_variables := drop_variables p;
     unit_inclusion_criteria := unit_inclusion_criteria p;
     run_on_qc_units := VBool true;
     spike_bin_width := VNum 0.5;
     areas_to_include := areas;
     areas_to_exclude := areas_to_exclude p;
     orthogonalize_against_context := orthogonalize_against_context p;
     quiescent_start_time := quiescent_start_time p;
     quiescent_stop_time := quiescent_stop_time p;
     trial_start_time := trial_start_time p;
     trial_stop_time := trial_stop_time p;
     intercept := intercept p |}.

(** An [io_utils.RunParams] object, as the script sees it: the session it
    was made for and the metric updates it received, oldest first. *)
Record IoParams : Type := {
  io_session : string;
  io_updates : list (string * value)
}.

Definition RunParams_new (sid : string) : IoParams :=
  {| io_session := sid; io_updates := [] |}.

Definition update_multiple_metrics (io : IoParams) (d : list (string * value))
  : IoParams :=
  {| io_session := io_session io; io_updates := io_updates io ++ d |}.

Definition update_metric (io : IoParams) (k : string) (v : value) : IoParams :=
  update_multiple_metrics io [(k, v)].

(** A kernel descriptor; the script reads its ['function_call']. *)
Record Kernel : Type := { function_call : string }.

(** The dict [get_params()] returns; the script reads ['model_label'],
    ['input_variables'] and ['kernels'], the rest is carried. *)
Record RunParams : Type := {
  model_label : string;
  rp_input_variables : list string;
  kernels : gmap string Kernel;
  rp_rest : list (string * value)
}.

(** The design matrix: its weight columns, each under its label, and the
    timestamp axis. *)
Record DesignMatrix : Type := {
  columns : list (string * list Q);
  timestamps : list Q
}.

(** [design_matrix.weights.values] and [design_matrix.data] *)
Definition weights (dm : DesignMatrix) : list string := (columns dm).*1.
Definition data (dm : DesignMatrix) : list (list Q) := (columns dm).*2.

(** [design_matrix.copy()]: a new matrix with the columns and timestamps of
    the one copied.  Neither [copy] nor [sel] changes the matrix it is
    called on. *)
Definition copy (dm : DesignMatrix) : DesignMatrix :=
  {| columns := columns dm; timestamps := timestamps dm |}.

(** The column under a label. *)
Fixpoint column (cols : list (string * list Q)) (label : string)
  : result (string * list Q) :=
  match cols with
  | [] => Raise (KeyError label)
  | (l, c) :: rest =>
      if bool_decide (l = label) then Ok (l, c) else column rest label
  end.

Fixpoint select (cols : list (string * list Q)) (labels : list string)
  : result (list (string * list Q)) :=
  match labels with
  | [] => Ok []
  | l :: rest =>
      match column cols l with
      | Raise e => Raise e
      | Ok c =>
          match select cols rest with
          | Raise e => Raise e
          | Ok cs => Ok (c :: cs)
          end
      end
  end.

(** [design_matrix.sel(weights=labels)]: selection by label, in the order of
    [labels].  An index with a repeated label cannot be selected from, and a
    label that is not in the index is a [KeyError]. *)
Definition sel (dm : DesignMatrix) (labels : list string) : result DesignMatrix :=
  if bool_decide (NoDup (weights dm)) then
    match select (columns dm) labels with
    | Raise e => Raise e
    | Ok cs => Ok {| columns := cs; timestamps := timestamps dm |}
    end
  else Raise InvalidIndexError.

(** ** Effects: a trace of events, and exceptions *)

Section Model.

(** What the collaborators hand around without the script looking inside:
    the NWB session, the units table, and the arrays and scalars of a fit
    record. *)
Context {Session UnitsTable Payload : Type}.

(** The fit record: the set under ['failed_kernels'] and the other entries. *)
Record Fit : Type := {
  failed_kernels : gset string;
  fit_entries : list (string * Payload)
}.

(** [behavior_info], indexed by name. *)
Definition BehaviorInfo : Type := list (string * Payload).

(** [d[key]] *)
Fixpoint getitem (d : list (string * Payload)) (key : string) : result Payload :=
  match d with
  | [] => Raise (KeyError key)
  | (k, v) :: rest => if bool_decide (k = key) then Ok v else getitem rest key
  end.

(** [d[key] = v]: in place when the key is there, appended otherwise. *)
Fixpoint setitem (d : list (string * Payload)) (key : string) (v : Payload)
  : list (string * Payload) :=
  match d with
  | [] => [(key, v)]
  | (k, w) :: rest =>
      if bool_decide (k = key) then (k, v) :: rest
      else (k, w) :: setitem rest key v
  end.

Definition fit_set (fit : Fit) (key : string) (v : Payload) : Fit :=
  {| failed_kernels := failed_kernels fit;
     fit_entries := setitem (fit_entries fit) key v |}.

(** The dict pickled under ['design_matrix']. *)
Record MatrixDict : Type := {
  md_data : list (list Q);
  md_weights : list string;
  md_timestamps : list Q
}.

(** The dict an artifact file holds. *)
Record Artifact : Type := {
  file : string;
  design_matrix : MatrixDict;
  fit : Fit;
  run_params : RunParams
}.

(** What a run does to the outside, in order. *)
Inductive event : Type :=
| EvMkdir (dir : string)
| EvValidate (io : IoParams)
| EvWrite (dir name : string) (content : Artifact)
| EvWriteOutside (path : string) (content : Artifact)
| EvEnsureNonempty (dirs : list string).

(** A computation: the events it performed, and its value or the exception
    that ended it. *)
Definition M (A : Type) : Type := list event * result A.

Definition ret {A} (a : A) : M A := ([], Ok a).
Definition raise {A} (e : exn) : M A := ([], Raise e).
Definition emit (ev : event) : M unit := ([ev], Ok tt).
Definition lift {A} (r : result A) : M A := ([], r).

Definition bind {A B} (m : M A) (k : A → M B) : M B :=
  match m with
  | (t, Ok a) => let '(t', r) := k a in (t ++ t', r)
  | (t, Raise e) => (t, Raise e)
  end.

Definition trace {A} (m : M A) : list event := m.1.
Definition outcome {A} (m : M A) : result A := m.2.

Local Notation "'let!' x ':=' m 'in' k" := (bind m (fun x => k))
  (at level 10, x name, m at level 100, k at level 200).

(** [for x in xs: body(x)] *)
Fixpoint for_each {A} (body : A → M unit) (xs : list A) : M unit :=
  match xs with
  | [] => ret tt
  | x :: rest => let! _ := body x in for_each body rest
  end.

(** [try: m  except Exception: (log)] *)
Definition try_except_Exception (m : M unit) : M unit :=
  match m with
  | (t, Raise e) => if is_Exception e then (t, Ok tt) else (t, Raise e)
  | (t, Ok a) => (t, Ok a)
  end.

(** ** The collaborators *)

Class Collaborators : Type := {
  (** [utils.get_nwb(session_id, raise_on_missing=True, raise_on_bad_file=True)] *)
  get_nwb : string → result Session;
  (** [session.units[:]['structure'].value_counts()], in its order *)
  structure_counts : Session → list (string * Z);
  (** [str.islower] of a structure name, as [.index.str.islower()] applies
      it: the test of Python, which knows the cased characters of Unicode *)
  islower : string → bool;
  (** [io_params.validate_params()] *)
  validate_params : IoParams → result unit;
  (** [io_params.get_params()] *)
  get_params : IoParams → result RunParams;
  (** [io_utils.get_session_data(session)] *)
  get_session_data : Session → result (UnitsTable * BehaviorInfo);
  (** [io_utils.extract_unit_data(run_params, units_table, behavior_info)] *)
  extract_unit_data : RunParams → UnitsTable → BehaviorInfo → result Fit;
  (** [io_utils.DesignMatrix(fit)], [io_utils.add_kernels(...)] and
      [design.get_X()], in one *)
  add_kernels :
    RunParams → Session → Fit → BehaviorInfo → result (DesignMatrix * Fit);
  (** the session ids of [session_table.query(query)] *)
  query_session_ids : string → result (list string);
  (** [utils.is_pipeline()] *)
  is_pipeline : bool;
  (** the stems of [utils.get_nwb_paths()] *)
  nwb_stems : list string;
  (** what becomes of [write_bytes] on a path that is not a file right in
      one of the two output directories: the file system decides *)
  write_outside : string → result unit
}.

Context `{Collaborators}.

(** The calls that resolve a parameter object are recorded once, when it is
    validated. *)
Definition validate (io : IoParams) : M unit :=
  let! _ := emit (EvValidate io) in lift (validate_params io).

(** ** process_session *)

(** [output_dirs]: ['full'] and ['reduced'] under [/results]. *)
Definition output_dirs (subfolder : string) : string := "/results/" +:+ subfolder.

(** [f'{session_id}_{model_name}_inputs.pkl'] *)
Definition artifact_name (sid model_name : string) : string :=
  sid +:+ "_" +:+ model_name +:+ "_inputs.pkl".

(** [dir / name] *)
Definition path_join (dir name : string) : string :=
  path_str (truediv (Path dir) name).

(** [mkdir(parents=True, exist_ok=True)] *)
Definition mkdir (dir : string) : M unit := emit (EvMkdir dir).

(** [(dir / name).write_bytes(pickle.dumps(content))].  A file right in an
    output directory is written there (the session has made the directory);
    for any other path the file system decides whether the write succeeds. *)
Definition write_bytes (dir name : string) (content : Artifact) : M unit :=
  let output_path := truediv (Path dir) name in
  match in_output_dir output_path with
  | Some (d, n) => emit (EvWrite d n content)
  | None =>
      match write_outside (path_str output_path) with
      | Ok _ => emit (EvWriteOutside (path_str output_path) content)
      | Raise e => raise e
      end
  end.

(** The dict of ['data'], ['weights'] and ['timestamps'] of a matrix. *)
Definition matrix_dict (dm : DesignMatrix) : MatrixDict :=
  {| md_data := data dm; md_weights := weights dm;
     md_timestamps := timestamps dm |}.

(** The areas the test mode keeps: the first structure, in the order of the
    counts, with 50 units or more and a name that is not lower-case. *)
Definition test_areas (session : Session) : value :=
  let filtered_structures :=
    filter (λ sc : string * Z, (50 ≤ sc.2)%Z ∧ islower sc.1 = false)
           (structure_counts session) in
  match filtered_structures with
  | [] => VNone
  | sc :: _ => VList [sc.1]
  end.

(** [run_params['kernels'][key]['function_call']] for each key *)
Fixpoint function_calls (rp : RunParams) (keys : list string)
  : result (list string) :=
  match keys with
  | [] => Ok []
  | key :: rest =>
      match kernels rp !! key with
      | None => Raise (KeyError key)
      | Some k =>
          match function_calls rp rest with
          | Raise e => Raise e
          | Ok fs => Ok (function_call k :: fs)
          end
      end
  end.

(** The features to drop, lines 154 to 158: the list of the parameters when
    it is true, else the input variables followed by the function calls of
    their kernels; then [list(set(...))]. *)
Definition drop_candidates (o : set_order) (requested : value) (rp : RunParams)
  : result (list string) :=
  if truthy requested then
    match iterate requested with
    | Raise e => Raise e
    | Ok l => Ok (o l)
    end
  else
    match function_calls rp (rp_input_variables rp) with
    | Raise e => Raise e
    | Ok fs => Ok (o (rp_input_variables rp ++ fs))
    end.

(** The weights kept for a reduced model, line 177. *)
Definition filtered_weights (dm : DesignMatrix) (rp_reduced : RunParams)
  : list string :=
  filter (λ weight, group_token weight ∈ dom (kernels rp_reduced)) (weights dm).

(** The body of the loop over the features, lines 160 to 201. *)
Definition dropout_feature (sid : string) (app_params : AppParams)
    (dm : DesignMatrix) (fit : Fit) (run_params : RunParams)
    (feature : string) : M unit :=
  let design_matrix_reduced := copy dm in
  let subfolder := "reduced" in
  if bool_decide (feature ∉ failed_kernels fit) then
    let io_params_reduced := RunParams_new sid in
    let io_params_reduced :=
      update_multiple_metrics io_params_reduced (asdict app_params) in
    let io_params_reduced :=
      update_multiple_metrics io_params_reduced
        [ ("drop_variables", VList [feature]);
          ("model_label", VStr ("drop_" +:+ feature)) ] in
    let! _ := validate io_params_reduced in
    let! run_params_reduced := lift (get_params io_params_reduced) in
    let filtered := filtered_weights dm run_params_reduced in
    let! design_matrix_reduced := lift (sel design_matrix_reduced filtered) in
    let model_name := model_label run_params_reduced in
    let name := artifact_name sid model_name in
    write_bytes (output_dirs subfolder) name
      {| file := path_join (output_dirs subfolder) name;
         design_matrix := matrix_dict design_matrix_reduced;
         fit := fit;
         run_params := run_params |}
  else ret tt.

(** The parameter object of the full model, lines 123 to 125. *)
Definition full_io_params (sid : string) (app_params : AppParams) : IoParams :=
  update_metric
    (update_multiple_metrics (RunParams_new sid) (asdict app_params))
    "model_label" (VStr "fullmodel").

(** The parameter object the loop makes for a feature, lines 170 to 172. *)
Definition reduced_io_params (sid : string) (app_params : AppParams)
    (feature : string) : IoParams :=
  update_multiple_metrics
    (update_multiple_metrics (RunParams_new sid) (asdict app_params))
    [ ("drop_variables", VList [feature]);
      ("model_label", VStr ("drop_" +:+ feature)) ].

(** The artifact the loop writes with a selected matrix, lines 187 to 201. *)
Definition reduced_artifact (sid : string) (fit : Fit) (run_params : RunParams)
    (run_params_reduced : RunParams) (selected : DesignMatrix) : Artifact :=
  {| file := path_join (output_dirs "reduced")
               (artifact_name sid (model_label run_params_reduced));
     design_matrix := matrix_dict selected;
     fit := fit;
     run_params := run_params |}.

Definition process_session (o : set_order) (sid : string)
    (app_params : AppParams) (test : Z) : M unit :=
  match get_nwb sid with
  | Raise FileNotFoundError | Raise RecursionError => ret tt
  | Raise e => raise e
  | Ok session =>
      let app_params :=
        if bool_decide (test ≠ 0%Z)
        then test_params app_params (test_areas session) else app_params in
      let! _ := mkdir (output_dirs "full") in
      let! _ := mkdir (output_dirs "reduced") in
      let subfolder := "full" in
      let io_params := RunParams_new sid in
      let io_params := update_multiple_metrics io_params (asdict app_params) in
      let io_params := update_metric io_params "model_label" (VStr "fullmodel") in
      let! _ := validate io_params in
      let! run_params := lift (get_params io_params) in
      let! ub := lift (get_session_data session) in
      let units_table := ub.1 in
      let behavior_info := ub.2 in
      let! fit := lift (extract_unit_data run_params units_table behavior_info) in
      let! df := lift (add_kernels run_params session fit behavior_info) in
      let design_matrix := df.1 in
      let fit := df.2 in
      let! is_good_behavior := lift (getitem behavior_info "is_good_behavior") in
      let fit := fit_set fit "is_good_behavior" is_good_behavior in
      let! dprime := lift (getitem behavior_info "dprime") in
      let fit := fit_set fit "dprime" dprime in
      let model_name := model_label run_params in
      let name := artifact_name sid model_name in
      let! _ :=
        write_bytes (output_dirs subfolder) name
          {| file := path_join (output_dirs subfolder) name;
             design_matrix := matrix_dict design_matrix;
             fit := fit;
             run_params := run_params |} in
      let! features := lift (drop_candidates o (features_to_drop app_params) run_params) in
      for_each (dropout_feature sid app_params design_matrix fit run_params)
               features
  end.

(** ** main *)

(** The parsed command line: [--session_id], [--test],
    [--session_table_query], the JSON object of [--override_params_json],
    and the options named after the other fields of [AppParams] (an option
    that was not given is [None]). *)
Record Args : Type := {
  arg_session_id : option string;
  arg_test : Z;
  arg_session_table_query : string;
  arg_override_params : gmap string value;
  arg_fields : gmap string value
}.

(** [getattr(args, name, None)] *)
Definition getattr_args (args : Args) (name : string) : value :=
  if bool_decide (name = "session_id")
  then from_option VStr VNone (arg_session_id args)
  else default VNone (arg_fields args !! name).

(** Lines 265 to 268: the fields given on the command line. *)
Definition cli_params (args : Args) : gmap string value :=
  foldl (λ app_params name,
           match getattr_args args name with
           | VNone => app_params
           | val => <[name := val]> app_params
           end) ∅ AppParams_fields.

(** Lines 270 to 275: the override map, written over what is there. *)
Definition apply_overrides (app_params override_params : gmap string value)
  : gmap string value :=
  if bool_decide (override_params = ∅) then app_params
  else foldl (λ app kv, <[kv.1 := kv.2]> app) app_params
             (map_to_list override_params).

(** The loop over the sessions, lines 298 to 308. *)
Fixpoint run_sessions (o : set_order) (app_params : gmap string value)
    (test : Z) (session_ids : list string) : M unit :=
  match session_ids with
  | [] => ret tt
  | sid :: rest =>
      let! _ :=
        try_except_Exception
          (let! p := lift (AppParams_init sid app_params) in
           process_session o sid p test) in
      if bool_decide (test ≠ 0%Z) then ret tt
      else run_sessions o app_params test rest
  end.

Definition results_dirs : list string := ["/results/full"; "/results/reduced"].

Definition main (o : set_order) (args : Args) : M unit :=
  let app_params := apply_overrides (cli_params args) (arg_override_params args) in
  let! session_ids := lift (query_session_ids (arg_session_table_query args)) in
  let! session_ids :=
    match arg_session_id args with
    | Some sid =>
        if bool_decide (sid ∈ session_ids) then ret [sid]
        else raise SystemExit
    | None =>
        if is_pipeline then
          let both := o (filter (λ s, s ∈ nwb_stems) session_ids) in
          if bool_decide (length both ≤ 1)%nat then ret both
          else raise AssertionError
        else ret session_ids
    end in
  let! _ := run_sessions o app_params (arg_test args) session_ids in
  emit (EvEnsureNonempty results_dirs).

(** ** The results tree *)

Inductive file_content : Type :=
| Pickled (a : Artifact)
| Placeholder.

(** The output directories that exist, each with its files by name.  A
    file written anywhere else is not in this tree. *)
Definition results_tree : Type := gmap string (gmap string file_content).

Definition tree_mkdir (dir : string) (t : results_tree) : results_tree :=
  match t !! dir with
  | Some _ => t
  | None => <[dir := ∅]> t
  end.

Definition tree_write (dir name : string) (c : file_content) (t : results_tree)
  : results_tree :=
  match t !! dir with
  | Some files => <[dir := <[name := c]> files]> t
  | None => t
  end.

(** Modelled from the spec: [utils.ensure_nonempty_results_dirs], which is
    not among the sources.  Each directory is made if it is not there, and a
    directory without a file is given a placeholder. *)
Definition ensure_nonempty_results_dirs (dirs : list string) (t : results_tree)
  : results_tree :=
  foldl (λ t dir,
           let t := tree_mkdir dir t in
           match t !! dir with
           | Some files =>
               if bool_decide (files = ∅)
               then tree_write dir "placeholder" Placeholder t else t
           | None => t
           end) t dirs.

(** What an event does to the tree.  The tree follows the directories made
    and the files written right in them under their plain names; where a
    write by another path lands is for the file system to say, and the tree
    does not follow it. *)
Definition apply_event (t : results_tree) (ev : event) : results_tree :=
  match ev with
  | EvMkdir dir => tree_mkdir dir t
  | EvValidate _ => t
  | EvWrite dir name a => tree_write dir name (Pickled a) t
  | EvWriteOutside _ _ => t
  | EvEnsureNonempty dirs => ensure_nonempty_results_dirs dirs t
  end.

(** The tree a trace leaves, from the tree it started in. *)
Definition tree_after (t : results_tree) (evs : list event) : results_tree :=
  foldl apply_event t evs.

(** A directory exists and holds a file. *)
Definition nonempty_dir (t : results_tree) (dir : string) : Prop :=
  ∃ files, t !! dir = Some files ∧ files ≠ ∅.

(** The artifact pickled in a file of the tree. *)
Definition artifact_at (t : results_tree) (dir name : string) : option Artifact :=
  match t !! dir with
  | Some files =>
      match files !! name with
      | Some (Pickled a) => Some a
      | _ => None
      end
  | None => None
  end.

(** The names of the files of a directory. *)
Definition listdir (t : results_tree) (dir : string) : option (list string) :=
  (λ files : gmap string file_content, (map_to_list files).*1) <$> t !! dir.

End Model.

(** ** Two iteration orders, and a small world to run the script in *)

(** The elements in the order of their last occurrence, and in the
    opposite order. *)
Definition last_seen_order : set_order :=
  SetOrder remove_dups NoDup_remove_dups elem_of_remove_dups.

Definition reversed_order : set_order.
Proof.
  refine (SetOrder (λ xs, reverse (remove_dups xs)) _ _).
  - intros xs. rewrite reverse_Permutation. apply NoDup_remove_dups.
  - intros xs x. by rewrite elem_of_reverse, elem_of_remove_dups.
Defined.

Module Demo.

(** The last update of a metric. *)
Definition metric (io : IoParams) (key : string) : value :=
  default VNone (snd <$> last (filter (λ kv, kv.1 = key) (io_updates io))).

Definition names_of (v : value) : list string :=
  match v with VList l => l | _ => [] end.

(** The input variables that are left once the drop variables are taken out. *)
Definition kept_variables (io : IoParams) : list string :=
  filter (λ v, v ∉ names_of (metric io "drop_variables"))
         (names_of (metric io "input_variables")).

(** A stand-in for [io_utils.RunParams]: one kernel per input variable that
    is not dropped, under the name of the variable. *)
Definition demo_run_params (io : IoParams) : RunParams :=
  {| model_label :=
       match metric io "model_label" with VStr s => s | _ => "" end;
     rp_input_variables := kept_variables io;
     kernels :=
       list_to_map ((λ v, (v, {| function_call := v |})) <$> kept_variables io);
     rp_rest := [] |}.

Definition demo_get_params (io : IoParams) : result RunParams :=
  Ok (demo_run_params io).

(** Lenient validation accepts everything; strict validation refuses a drop
    variable that is not an input variable. *)
Definition demo_validate_params (strict : bool) (io : IoParams) : result unit :=
  if strict &&
     negb (bool_decide (names_of (metric io "drop_variables")
                          ⊆ names_of (metric io "input_variables")))
  then Raise ValueError else Ok tt.

(** A world with the sessions of [table], in which every session loads and
    builds the design matrix [dm], with the kernels [failed] failed. *)
Definition world (strict : bool) (dm : DesignMatrix) (failed : list string)
    (table : list string) : @Collaborators string unit value :=
  {| get_nwb := λ sid, Ok sid;
     structure_counts := λ _, [];
     islower := ascii_islower;
     validate_params := demo_validate_params strict;
     get_params := demo_get_params;
     get_session_data := λ _,
       Ok (tt, [("is_good_behavior", VBool true); ("dprime", VNum 2)]);
     extract_unit_data := λ _ _ _,
       Ok {| failed_kernels := list_to_set failed; fit_entries := [] |};
     add_kernels := λ _ _ fit _, Ok (dm, fit);
     query_session_ids := λ _, Ok table;
     is_pipeline := false;
     nwb_stems := [];
     write_outside := λ _, Raise FileNotFoundError |}.

(** The fit record every session of a world gets. *)
Definition demo_fit (failed : list string) : @Fit value :=
  {| failed_kernels := list_to_set failed;
     fit_entries := [("is_good_behavior", VBool true); ("dprime", VNum 2)] |}.

(** Session S1 of the specification: licks and running speed, with three
    weight columns. *)
Definition S1_matrix : DesignMatrix :=
  {| columns := [ ("licks_0", [1%Q; 0%Q]); ("licks_1", [0%Q; 1%Q]);
                  ("running_speed_0", [0.5%Q; 0.25%Q]) ];
     timestamps := [0%Q; 0.025%Q] |}.

Definition S1_keywords : gmap string value :=
  {[ "input_variables" := VList ["licks"; "running_speed"] ]}.

Definition S1_params : AppParams := AppParams_of "S1" S1_keywords.

Definition S1_world : Collaborators := world false S1_matrix [] ["S1"].


(** Session S2: licks and running, with weight columns named after them. *)
Definition S2_matrix : DesignMatrix :=
  {| columns := [ ("licks_0", [1%Q; 0%Q]); ("licks_1", [0%Q; 1%Q]);
                  ("running_0", [0.5%Q; 0.25%Q]) ];
     timestamps := [0%Q; 0.025%Q] |}.

Definition S2_keywords (requested : value) : gmap string value :=
  {[ "input_variables" := VList ["licks"; "running"];
     "features_to_drop" := requested ]}.

Definition S2_params (requested : value) : AppParams :=
  AppParams_of "S2" (S2_keywords requested).

Definition S2_world (strict : bool) (failed : list string) : Collaborators :=
  world strict S2_matrix failed ["S2"].

Definition S2_run_params (requested : value) : RunParams :=
  demo_run_params (full_io_params "S2" (S2_params requested)).

(** A command line with nothing but the override map, and one that asks for
    a session. *)
Definition override_only (ovr : gmap string value) : Args :=
  {| arg_session_id := None; arg_test := 0;
     arg_session_table_query := "is_ephys & is_task";
     arg_override_params := ovr; arg_fields := ∅ |}.

Definition one_session (sid : string) : Args :=
  {| arg_session_id := Some sid; arg_test := 0;
     arg_session_table_query := "is_ephys & is_task";
     arg_override_params := ∅; arg_fields := ∅ |}.

(** A command line with two options, and an override map that names one of
    them. *)
Definition two_options : Args :=
  {| arg_session_id := None; arg_test := 0;
     arg_session_table_query := "is_ephys & is_task";
     arg_override_params :=
       {[ "spike_bin_width" := VNum 0.1; "intercept" := VBool false ]};
     arg_fields :=
       {[ "spike_bin_width" := VNum 0.05;
          "time_of_interest" := VStr "full_trial" ]} |}.

(** Two input variables whose kernels share a function call. *)
Definition stimulus_run_params : RunParams :=
  {| model_label := "fullmodel";
     rp_input_variables := ["vis1"; "licks"];
     kernels := {[ "vis1" := {| function_call := "stimulus" |};
                   "licks" := {| function_call := "licks" |} ]};
     rp_rest := [] |}.

(** A world in which the sessions of [missing] have no NWB file. *)
Definition without_files (w : @Collaborators string unit value)
    (missing : list string) : @Collaborators string unit value :=
  {| get_nwb := λ sid,
       if bool_decide (sid ∈ missing) then Raise FileNotFoundError
       else get_nwb (Collaborators := w) sid;
     structure_counts := structure_counts (Collaborators := w);
     islower := islower (Collaborators := w);
     validate_params := validate_params (Collaborators := w);
     get_params := get_params (Collaborators := w);
     get_session_data := get_session_data (Collaborators := w);
     extract_unit_data := extract_unit_data (Collaborators := w);
     add_kernels := add_kernels (Collaborators := w);
     query_session_ids := query_session_ids (Collaborators := w);
     is_pipeline := is_pipeline (Collaborators := w);
     nwb_stems := nwb_stems (Collaborators := w);
     write_outside := write_outside (Collaborators := w) |}.

(** A world in which the load of the sessions of [ids] is interrupted. *)
Definition interrupted_at (w : @Collaborators string unit value)
    (ids : list string) : @Collaborators string unit value :=
  {| get_nwb := λ sid,
       if bool_decide (sid ∈ ids) then Raise KeyboardInterrupt
       else get_nwb (Collaborators := w) sid;
     structure_counts := structure_counts (Collaborators := w);
     islower := islower (Collaborators := w);
     validate_params := validate_params (Collaborators := w);
     get_params := get_params (Collaborators := w);
     get_session_data := get_session_data (Collaborators := w);
     extract_unit_data := extract_unit_data (Collaborators := w);
     add_kernels := add_kernels (Collaborators := w);
     query_session_ids := query_session_ids (Collaborators := w);
     is_pipeline := is_pipeline (Collaborators := w);
     nwb_stems := nwb_stems (Collaborators := w);
     write_outside := write_outside (Collaborators := w) |}.

(** A world run as a pipeline, with the NWB files of [stems] at hand. *)
Definition in_pipeline (w : @Collaborators string unit value)
    (stems : list string) : @Collaborators string unit value :=
  {| get_nwb := get_nwb (Collaborators := w);
     structure_counts := structure_counts (Collaborators := w);
     islower := islower (Collaborators := w);
     validate_params := validate_params (Collaborators := w);
     get_params := get_params (Collaborators := w);
     get_session_data := get_session_data (Collaborators := w);
     extract_unit_data := extract_unit_data (Collaborators := w);
     add_kernels := add_kernels (Collaborators := w);
     query_session_ids := query_session_ids (Collaborators := w);
     is_pipeline := true;
     nwb_stems := stems;
     write_outside := write_outside (Collaborators := w) |}.



(** A table of two sessions, both built as S2 is. *)
Definition two_sessions_world : Collaborators :=
  world false S2_matrix [] ["S2"; "S3"].


(** A model whose second input variable has no kernel. *)
Definition broken_run_params : RunParams :=
  {| model_label := "fullmodel";
     rp_input_variables := ["licks"; "pupil"; "running"];
     kernels := {[ "licks" := {| function_call := "licks" |};
                   "running" := {| function_call := "running" |} ]};
     rp_rest := [] |}.

End Demo.

(** * Properties *)

(** ** Plain file names *)

Lemma split_slash_plain (s : string) : has_slash s = false → split_slash s = [s].
Proof.
  induction s as [|c s IH]; simpl; [done|].
  destruct (Ascii.eqb c "/"); simpl; [done|]. intros Hs. by rewrite IH.
Qed.

Lemma split_slash_no_slash (s : string) :
  Forall (λ c, has_slash c = false) (split_slash s).
Proof.
  induction s as [|c s IH]; simpl; [by repeat constructor|].
  destruct (Ascii.eqb c "/") eqn:Hc; [by constructor|].
  destruct (split_slash s) as [|w ws]; [by repeat constructor; simpl; rewrite Hc|].
  apply Forall_cons in IH as [Hw Hws]. constructor; [|done].
  simpl. by rewrite Hc.
Qed.

Lemma path_root_plain (s : string) : has_slash s = false → path_root s = "".
Proof. destruct s as [|c s]; simpl; [done|]. by destruct (Ascii.eqb c "/"). Qed.

Lemma path_parts_plain (s : string) :
  has_slash s = false → has_underscore s = true → path_parts s = [s].
Proof.
  intros Hs Hu. unfold path_parts. rewrite split_slash_plain by done.
  rewrite filter_cons, decide_True; [done|]. split; by intros ->.
Qed.

Lemma path_parts_no_slash (s : string) :
  Forall (λ c, has_slash c = false) (path_parts s).
Proof.
  apply Forall_forall. intros c [_ Hc]%list_elem_of_filter.
  by apply (proj1 (Forall_forall _ _) (split_slash_no_slash s)).
Qed.

Lemma has_underscore_app (a b : string) :
  has_underscore (a +:+ b) = has_underscore a || has_underscore b.
Proof.
  induction a as [|c a IH]; [done|].
  change (String c a +:+ b) with (String c (a +:+ b)). simpl.
  by rewrite IH, orb_assoc.
Qed.

Lemma artifact_name_underscore (sid model_name : string) :
  has_underscore (artifact_name sid model_name) = true.
Proof.
  unfold artifact_name. rewrite has_underscore_app.
  change ("_" +:+ model_name +:+ "_inputs.pkl")
    with (String "_" (model_name +:+ "_inputs.pkl")).
  simpl. apply orb_true_r.
Qed.

(** A path that names a file right in an output directory is the directory,
    a slash, and the name of the file. *)
Lemma in_output_dir_Some (p : PurePath) (d n : string) :
  in_output_dir p = Some (d, n) →
  (d = "/results/full" ∨ d = "/results/reduced")
  ∧ n ∈ p_parts p
  ∧ path_str p = d +:+ "/" +:+ n.
Proof.
  unfold in_output_dir, path_str. destruct p as [root parts]. simpl.
  destruct parts as [|r [|d' [|n' [|]]]]; try done.
  case_bool_decide as Hp; [|done]. intros [= <- <-].
  destruct Hp as (-> & -> & Hd & _).
  rewrite bool_decide_eq_false_2 by (by intros [? _]).
  split; [by destruct Hd as [-> | ->]; [left|right]|].
  split; [|done]. do 2 apply list_elem_of_further. apply list_elem_of_here.
Qed.

Section Properties.

Context {Session UnitsTable Payload : Type}.
Context `{!@Collaborators Session UnitsTable Payload}.

Local Abbreviation M := (@M Payload).
Local Abbreviation Fit := (@Fit Payload).
Local Abbreviation event := (@event Payload).

(** ** Writing an artifact under a plain name *)

(** The name of an artifact without a ['/'] is the name of a file right in
    the output directory, and the artifact is written there. *)
Lemma write_bytes_artifact (sub sid model_name : string) (a : Artifact) :
  sub = "full" ∨ sub = "reduced" →
  has_slash (artifact_name sid model_name) = false →
  write_bytes (output_dirs sub) (artifact_name sid model_name) a
  = emit (EvWrite (output_dirs sub) (artifact_name sid model_name) a).
Proof.
  intros Hsub Hname.
  pose proof (artifact_name_underscore sid model_name) as Hu.
  unfold write_bytes, truediv.
  rewrite (path_root_plain _ Hname), bool_decide_eq_true_2 by done.
  assert (artifact_name sid model_name ≠ "..") as Hdots
    by (intros Heq; by rewrite Heq in Hu).
  destruct Hsub as [-> | ->].
  - change (Path (output_dirs "full"))
      with {| p_root := "/"; p_parts := ["results"; "full"] |}.
    cbn [p_root p_parts]. rewrite (path_parts_plain _ Hname Hu).
    unfold in_output_dir. cbn [p_root p_parts app].
    by rewrite bool_decide_eq_true_2 by naive_solver.
  - change (Path (output_dirs "reduced"))
      with {| p_root := "/"; p_parts := ["results"; "reduced"] |}.
    cbn [p_root p_parts]. rewrite (path_parts_plain _ Hname Hu).
    unfold in_output_dir. cbn [p_root p_parts app].
    by rewrite bool_decide_eq_true_2 by naive_solver.
Qed.

(** What a call of [write_bytes] can have done: one write, in an output
    directory or outside; and what it raises, the file system raised. *)
Lemma write_bytes_event (dir name : string) (a : Artifact) (ev : event) :
  ev ∈ trace (write_bytes dir name a) →
  (∃ d n, ev = EvWrite d n a
          ∧ in_output_dir (truediv (Path dir) name) = Some (d, n))
  ∨ ev = EvWriteOutside (path_join dir name) a.
Proof.
  unfold write_bytes, path_join.
  destruct (in_output_dir _) as [[d n]|].
  - intros ->%list_elem_of_singleton. left. eauto.
  - destruct (write_outside _); [|by intros ?%elem_of_nil].
    intros ->%list_elem_of_singleton. by right.
Qed.


(** A file written in an output directory for an artifact of a session:
    where it is, and what the artifact records as its path. *)
Lemma write_bytes_in_output_dir (sub sid model_name dir name : string)
    (a a' : Artifact) :
  sub = "full" ∨ sub = "reduced" →
  EvWrite dir name a'
  ∈ trace (write_bytes (output_dirs sub) (artifact_name sid model_name) a) →
  a' = a
  ∧ (dir = "/results/full" ∨ dir = "/results/reduced")
  ∧ has_slash name = false
  ∧ path_join (output_dirs sub) (artifact_name sid model_name)
    = dir +:+ "/" +:+ name
  ∧ (has_slash (artifact_name sid model_name) = false →
     dir = output_dirs sub ∧ name = artifact_name sid model_name).
Proof.
  intros Hsub Hev.
  assert (has_slash (artifact_name sid model_name) = false →
          dir = output_dirs sub ∧ name = artifact_name sid model_name) as Hplain.
  { intros Hname. rewrite (write_bytes_artifact sub) in Hev by done.
    apply list_elem_of_singleton in Hev. by injection Hev as -> -> _. }
  apply write_bytes_event in Hev as [(d & n & Heq & Hin)|Heq]; [|done].
  injection Heq as -> -> ->.
  apply in_output_dir_Some in Hin as (Hd & Hn & Hstr).
  split; [done|]. split; [done|]. split; [|by split].
  unfold truediv in Hn.
  pose proof (path_parts_no_slash (artifact_name sid model_name)) as Hparts.
  rewrite Forall_forall in Hparts.
  case_bool_decide; cbn [p_parts] in Hn; [|by apply Hparts].
  apply elem_of_app in Hn as [Hn|Hn]; [|by apply Hparts].
  destruct Hsub as [-> | ->].
  - change (p_parts (Path (output_dirs "full")))
      with ["results"; "full"] in Hn.
    apply elem_of_cons in Hn as [->|Hn]; [done|].
    by apply list_elem_of_singleton in Hn as ->.
  - change (p_parts (Path (output_dirs "reduced")))
      with ["results"; "reduced"] in Hn.
    apply elem_of_cons in Hn as [->|Hn]; [done|].
    by apply list_elem_of_singleton in Hn as ->.
Qed.

(** ** The laws of sequencing *)

Lemma bind_ret {A B} (a : A) (k : A → M B) : bind (ret a) k = k a.
Proof. unfold bind, ret. by destruct (k a). Qed.

Lemma bind_assoc {A B C} (m : M A) (k : A → M B) (h : B → M C) :
  bind (bind m k) h = bind m (λ a, bind (k a) h).
Proof.
  destruct m as [t [a|e]]; simpl; [|done].
  destruct (k a) as [t' [b|e]]; simpl; [|done].
  destruct (h b) as [t'' r]. by rewrite (assoc_L (++)).
Qed.

Lemma bind_Ok {A B} (m : M A) (k : A → M B) (a : A) :
  outcome m = Ok a →
  bind m k = (trace m ++ trace (k a), outcome (k a)).
Proof. destruct m as [t r]; simpl. intros ->. by destruct (k a). Qed.

Lemma bind_Raise {A B} (m : M A) (k : A → M B) (e : exn) :
  outcome m = Raise e → bind m k = (trace m, Raise e).
Proof. destruct m as [t r]; simpl. by intros ->. Qed.

Lemma elem_of_trace_bind {A B} (m : M A) (k : A → M B) (ev : event) :
  ev ∈ trace (bind m k) →
  ev ∈ trace m ∨ ∃ a, outcome m = Ok a ∧ ev ∈ trace (k a).
Proof.
  destruct m as [t [a|e]]; simpl; [|by left].
  destruct (k a) as [t' r] eqn:Hk. simpl.
  intros [?|?]%elem_of_app; [by left|]. right. exists a. by rewrite Hk.
Qed.

Lemma bind_emit {B} (ev : event) (k : unit → M B) :
  bind (emit ev) k = (ev :: trace (k tt), outcome (k tt)).
Proof. unfold bind, emit. by destruct (k tt). Qed.

(** ** The loop over a list *)

Lemma for_each_app {A} (body : A → M unit) (xs ys : list A) :
  for_each body (xs ++ ys) = bind (for_each body xs) (λ _, for_each body ys).
Proof.
  induction xs as [|x xs IH].
  - change (for_each body []) with (@ret Payload _ tt). by rewrite bind_ret.
  - change (for_each body ((x :: xs) ++ ys))
      with (bind (body x) (λ _, for_each body (xs ++ ys))).
    change (for_each body (x :: xs))
      with (bind (body x) (λ _, for_each body xs)).
    by rewrite bind_assoc, IH.
Qed.



(** Every event of a loop is an event of one of its iterations. *)
Lemma for_each_event {A} (body : A → M unit) (xs : list A) (ev : event) :
  ev ∈ trace (for_each body xs) → ∃ x, x ∈ xs ∧ ev ∈ trace (body x).
Proof.
  induction xs as [|x xs IH]; simpl.
  - by intros ?%elem_of_nil.
  - destruct (body x) as [t [[]|e]] eqn:Hx; simpl.
    + destruct (for_each body xs) as [t' r']. simpl in *.
      intros [Hin|Hin]%elem_of_app.
      * exists x. rewrite Hx. split; [left|done].
      * destruct (IH Hin) as (y & ? & ?). exists y. split; [by right|done].
    + intros Hin. exists x. rewrite Hx. split; [left|done].
Qed.

(** An iteration that raises ends the loop: the iterations after it are not
    run. *)
Lemma for_each_Raise {A} (body : A → M unit) (pre post : list A) (x : A)
    (e : exn) :
  outcome (for_each body pre) = Ok tt →
  outcome (body x) = Raise e →
  for_each body (pre ++ x :: post)
  = (trace (for_each body pre) ++ trace (body x), Raise e).
Proof.
  intros Hpre Hx. rewrite for_each_app, (bind_Ok _ _ tt Hpre).
  change (for_each body (x :: post))
    with (bind (body x) (λ _, for_each body post)).
  by rewrite (bind_Raise _ _ e Hx).
Qed.


(** ** Selection of columns *)




Lemma column_label (cols : list (string * list Q)) (label : string)
    (c : string * list Q) :
  column cols label = Ok c → c.1 = label.
Proof.
  induction cols as [|[l x] cols IH]; simpl; [done|].
  case_bool_decide; [|done]. by intros [= <-].
Qed.

Lemma select_Ok_labels (cols : list (string * list Q)) (labels : list string)
    (cs : list (string * list Q)) :
  select cols labels = Ok cs → cs.*1 = labels.
Proof.
  revert cs. induction labels as [|l labels IH]; intros cs; simpl.
  - by intros [= <-].
  - destruct (column cols l) as [c|] eqn:Hc; [|done].
    destruct (select cols labels) as [cs'|]; [|done].
    intros [= <-]. rewrite fmap_cons.
    f_equal; [by eapply column_label | by apply IH].
Qed.

(** A selection that succeeds has exactly the labels asked for. *)
Lemma sel_Ok_weights (dm selected : DesignMatrix) (labels : list string) :
  sel dm labels = Ok selected → weights selected = labels.
Proof.
  unfold sel. case_bool_decide; [|done].
  destruct (select (columns dm) labels) as [cs|] eqn:Hcs; [|done].
  intros [= <-]. by apply select_Ok_labels in Hcs.
Qed.







(** ** A session, step by step *)

(** When the session loads and the full model builds, [process_session]
    makes the two directories, writes the artifact of the full model, and
    then is the loop over the features to drop. *)
Lemma process_session_steps (o : set_order) (sid : string)
    (app_params : AppParams) (test : Z) (session : Session)
    (rp : RunParams) (units_table : UnitsTable) (behavior_info : BehaviorInfo)
    (fit0 fit1 : Fit) (dm : DesignMatrix) (is_good dprime : Payload)
    (features : list string) :
  let app' :=
    if bool_decide (test ≠ 0%Z)
    then test_params app_params (test_areas session) else app_params in
  let fit2 :=
    fit_set (fit_set fit1 "is_good_behavior" is_good) "dprime" dprime in
  get_nwb sid = Ok session →
  validate_params (full_io_params sid app') = Ok tt →
  get_params (full_io_params sid app') = Ok rp →
  get_session_data session = Ok (units_table, behavior_info) →
  extract_unit_data rp units_table behavior_info = Ok fit0 →
  add_kernels rp session fit0 behavior_info = Ok (dm, fit1) →
  getitem behavior_info "is_good_behavior" = Ok is_good →
  getitem behavior_info "dprime" = Ok dprime →
  has_slash (artifact_name sid (model_label rp)) = false →
  drop_candidates o (features_to_drop app') rp = Ok features →
  process_session o sid app_params test
  = ([ EvMkdir "/results/full"; EvMkdir "/results/reduced";
       EvValidate (full_io_params sid app');
       EvWrite "/results/full" (artifact_name sid (model_label rp))
         {| file := path_join "/results/full"
                      (artifact_name sid (model_label rp));
            design_matrix := matrix_dict dm;
            fit := fit2;
            run_params := rp |} ]
     ++ trace (for_each (dropout_feature sid app' dm fit2 rp) features),
     outcome (for_each (dropout_feature sid app' dm fit2 rp) features)).
Proof.
  intros app' fit2 Hnwb Hv Hg Hd Hx Hk Hgood Hdp Hname Hfeat.
  unfold process_session. rewrite Hnwb. fold app'.
  unfold validate, mkdir.
  change (update_metric _ "model_label" (VStr "fullmodel"))
    with (full_io_params sid app').
  rewrite Hv. simpl. rewrite Hg. simpl. rewrite Hd. simpl. rewrite Hx. simpl.
  rewrite Hk. simpl. rewrite Hgood. simpl. rewrite Hdp. simpl.
  rewrite (write_bytes_artifact "full") by (done || by left).
  simpl. rewrite Hfeat. simpl.
  by destruct (for_each _ features).
Qed.

(** ** One iteration of the loop over the features *)

Section Iteration.

Variables (sid : string) (app_params : AppParams) (dm : DesignMatrix).
Variables (fit_record : Fit) (full_run_params : RunParams).

Local Abbreviation body :=
  (dropout_feature sid app_params dm fit_record full_run_params).
Local Abbreviation io_of := (reduced_io_params sid app_params).
Local Abbreviation written rp' selected :=
  (EvWrite (output_dirs "reduced") (artifact_name sid (model_label rp'))
           (reduced_artifact sid fit_record full_run_params rp' selected)).

Lemma dropout_feature_failed (f : string) :
  f ∈ failed_kernels fit_record → body f = ret tt.
Proof.
  intros Hf. unfold dropout_feature.
  by rewrite bool_decide_eq_false_2 by (intros Hn; by apply Hn).
Qed.

(** The iteration of a feature whose kernel did not fail, step by step. *)
Lemma dropout_feature_steps (f : string) :
  f ∉ failed_kernels fit_record →
  body f =
    bind (validate (io_of f)) (λ _,
    bind (lift (get_params (io_of f))) (λ rp',
    bind (lift (sel (copy dm) (filtered_weights dm rp'))) (λ selected,
    write_bytes (output_dirs "reduced") (artifact_name sid (model_label rp'))
                (reduced_artifact sid fit_record full_run_params rp'
                   selected)))).
Proof.
  intros Hf. unfold dropout_feature. by rewrite bool_decide_eq_true_2 by done.
Qed.


(** What an iteration can have done: nothing for a failed kernel; else it
    validated the parameters of its feature, and what else it did is the
    write of the artifact of its feature. *)
Lemma dropout_feature_event (f : string) (ev : event) :
  ev ∈ trace (body f) →
  (f ∉ failed_kernels fit_record)
  ∧ (ev = EvValidate (io_of f)
     ∨ ∃ rp' selected,
         get_params (io_of f) = Ok rp'
         ∧ sel (copy dm) (filtered_weights dm rp') = Ok selected
         ∧ ev ∈ trace (write_bytes (output_dirs "reduced")
                         (artifact_name sid (model_label rp'))
                         (reduced_artifact sid fit_record full_run_params rp'
                            selected))).
Proof.
  destruct (decide (f ∈ failed_kernels fit_record)) as [Hf|Hf].
  { rewrite (dropout_feature_failed f Hf). by intros ?%elem_of_nil. }
  rewrite (dropout_feature_steps f Hf). unfold validate.
  intros Hev. split; [done|].
  apply elem_of_trace_bind in Hev as [Hev|(_ & _ & Hev)].
  { apply elem_of_trace_bind in Hev as [Hev|(_ & _ & Hev)].
    - apply list_elem_of_singleton in Hev. by left.
    - by apply elem_of_nil in Hev. }
  apply elem_of_trace_bind in Hev as [Hev|(rp' & Hg & Hev)];
    [by apply elem_of_nil in Hev|].
  apply elem_of_trace_bind in Hev as [Hev|(selected & Hs & Hev)];
    [by apply elem_of_nil in Hev|].
  right. exists rp', selected. by repeat split.
Qed.



(** Every artifact the loop writes carries the parameters of the full
    model, whatever the feature. *)
Lemma for_each_written_run_params (fs : list string) (dir name : string)
    (a : Artifact) :
  EvWrite dir name a ∈ trace (for_each body fs) →
  run_params a = full_run_params.
Proof.
  intros (g & _ & Hg)%for_each_event.
  apply dropout_feature_event in Hg as [_ [Hg|(rp' & selected & _ & _ & Hg)]];
    [done|].
  apply write_bytes_event in Hg as [(d & n & Hg & _)|Hg]; [|done].
  by injection Hg as _ _ ->.
Qed.


(** C3, as amended: when the iteration of a feature raises, the loop over
    the features ends with that exception: what the features before it wrote
    stays, and the features after it in the iteration order are not
    processed.  The exception leaves [process_session], in the test mode as
    outside it, and is handled for the session as a whole: in [main], a
    session that raised an [Exception] is left; outside the test mode the
    sessions after it are run, and in the test mode the loop over the
    sessions ends there, as it does after a session that succeeded. *)
Theorem C3_failure_ends_feature_loop (pre post : list string) (f : string)
    (e : exn) :
  outcome (for_each body pre) = Ok tt →
  outcome (body f) = Raise e →
  for_each body (pre ++ f :: post)
    = (trace (for_each body pre) ++ trace (body f), Raise e)
  ∧ (∀ ev, ev ∈ trace (for_each body (pre ++ f :: post)) →
           ∃ g, g ∈ pre ++ [f] ∧ ev ∈ trace (body g))
  ∧ (∀ (o : set_order) (given : AppParams) (test : Z) (session : Session)
       (units_table : UnitsTable) (behavior_info : BehaviorInfo)
       (fit0 fit1 : Fit) (is_good dprime : Payload),
       get_nwb sid = Ok session →
       app_params
       = (if bool_decide (test ≠ 0%Z)
          then test_params given (test_areas session) else given) →
       validate_params (full_io_params sid app_params) = Ok tt →
       get_params (full_io_params sid app_params) = Ok full_run_params →
       get_session_data session = Ok (units_table, behavior_info) →
       extract_unit_data full_run_params units_table behavior_info = Ok fit0 →
       add_kernels full_run_params session fit0 behavior_info = Ok (dm, fit1) →
       getitem behavior_info "is_good_behavior" = Ok is_good →
       getitem behavior_info "dprime" = Ok dprime →
       fit_record
       = fit_set (fit_set fit1 "is_good_behavior" is_good) "dprime" dprime →
       has_slash (artifact_name sid (model_label full_run_params)) = false →
       drop_candidates o (features_to_drop app_params) full_run_params
       = Ok (pre ++ f :: post) →
       outcome (process_session o sid given test) = Raise e)
  ∧ (∀ (o : set_order) (kw : gmap string value) (test : Z) (s : string)
       (rest : list string) (e' : exn),
       let session :=
         bind (lift (AppParams_init s kw))
              (λ p, process_session o s p test) in
       outcome session = Raise e' → is_Exception e' = true →
       run_sessions o kw test (s :: rest)
       = if bool_decide (test ≠ 0%Z)
         then (trace session, Ok tt)
         else (trace session ++ trace (run_sessions o kw test rest),
               outcome (run_sessions o kw test rest))).
Proof.
  intros Hpre Hf. split; [by apply for_each_Raise|]. split; [|split].
  - intros ev. rewrite (for_each_Raise _ pre post f e Hpre Hf). simpl.
    intros [Hev|Hev]%elem_of_app.
    + apply for_each_event in Hev as (g & ? & ?). exists g.
      split; [|done]. apply elem_of_app. by left.
    + exists f. split; [|done]. apply elem_of_app. right. by left.
  - intros o given test session units_table behavior_info fit0 fit1 is_good
      dprime Hnwb Happ Hv Hg Hd Hx Hk Hgood Hdp Hfit Hname Hfeat.
    rewrite (process_session_steps o sid given test session full_run_params
               units_table behavior_info fit0 fit1 dm is_good dprime
               (pre ++ f :: post)); [|done || by rewrite <- Happ ..].
    simpl. rewrite <- Hfit, <- Happ.
    by rewrite (for_each_Raise _ pre post f e Hpre Hf).
  - intros o kw test s rest e' session Hs He'.
    change (run_sessions o kw test (s :: rest))
      with (bind (try_except_Exception session)
              (λ _, if bool_decide (test ≠ 0%Z) then ret tt
                    else run_sessions o kw test rest)).
    destruct session as [t r]. simpl in Hs. subst r. simpl. rewrite He'.
    simpl. case_bool_decide; simpl.
    + by rewrite (right_id_L [] (++)).
    + by destruct (run_sessions o kw test rest).
Qed.




End Iteration.

(** ** The features to drop *)

Lemma function_calls_Ok (rp : RunParams) (keys : list string) :
  (∀ key, key ∈ keys → is_Some (kernels rp !! key)) →
  ∃ fs, function_calls rp keys = Ok fs
        ∧ ∀ x, x ∈ fs ↔ ∃ key ker, key ∈ keys ∧ kernels rp !! key = Some ker
                                   ∧ function_call ker = x.
Proof.
  induction keys as [|key keys IH]; intros Hall; simpl.
  - exists []. split; [done|]. intros x. split.
    + by intros ?%elem_of_nil.
    + by intros (? & ? & ?%elem_of_nil & _).
  - destruct (Hall key) as [ker Hker]; [by left|]. rewrite Hker.
    destruct IH as (fs & -> & Hfs); [intros; apply Hall; by right|].
    exists (function_call ker :: fs). split; [done|]. intros x.
    rewrite elem_of_cons, Hfs. split.
    + intros [->|(k & kr & ? & ? & ?)].
      * exists key, ker. split; [by left|done].
      * exists k, kr. split; [by right|done].
    + intros (k & kr & [->|Hin]%elem_of_cons & Hk & Hx).
      * left. congruence.
      * right. eauto.
Qed.

(** C7: with [features_to_drop] unset, and a kernel for every input variable
    of the full model, the features to drop are the input variables of the
    full model together with the function call of the kernel of each, every
    name once. *)
Theorem C7_candidates_when_unset (o : set_order) (rp : RunParams) :
  (∀ key, key ∈ rp_input_variables rp → is_Some (kernels rp !! key)) →
  ∃ features,
    drop_candidates o VNone rp = Ok features
    ∧ NoDup features
    ∧ ∀ x, x ∈ features
           ↔ x ∈ rp_input_variables rp
             ∨ ∃ key ker, key ∈ rp_input_variables rp
                          ∧ kernels rp !! key = Some ker
                          ∧ function_call ker = x.
Proof.
  intros Hall. unfold drop_candidates. simpl.
  destruct (function_calls_Ok rp _ Hall) as (fs & -> & Hfs).
  eexists. split; [done|]. split; [apply set_iter_NoDup|].
  intros x. by rewrite set_iter_elem, elem_of_app, Hfs.
Qed.

(** C10: an empty [features_to_drop] is read as an unset one.  The features
    are derived from the input variables and their kernels, as for [None]
    and for every other value that is false: with a kernel for every input
    variable of the full model, they are the input variables together with
    the function call of the kernel of each, every name once, and with an
    input variable in the full model the list is not empty. *)
Theorem C10_empty_list_is_unset (o : set_order) (rp : RunParams) :
  drop_candidates o (VList []) rp = drop_candidates o VNone rp
  ∧ (∀ v, truthy v = false →
          drop_candidates o v rp = drop_candidates o VNone rp)
  ∧ ((∀ key, key ∈ rp_input_variables rp → is_Some (kernels rp !! key)) →
     ∃ features,
       drop_candidates o (VList []) rp = Ok features
       ∧ NoDup features
       ∧ ∀ x, x ∈ features
              ↔ x ∈ rp_input_variables rp
                ∨ ∃ key ker, key ∈ rp_input_variables rp
                             ∧ kernels rp !! key = Some ker
                             ∧ function_call ker = x)
  ∧ (∀ features, drop_candidates o (VList []) rp = Ok features →
                 rp_input_variables rp ≠ [] → features ≠ []).
Proof.
  split; [done|]. split; [|split].
  - intros v Hv. unfold drop_candidates. by rewrite Hv.
  - intros Hall. unfold drop_candidates. simpl.
    destruct (function_calls_Ok rp _ Hall) as (fs & -> & Hfs).
    eexists. split; [done|]. split; [apply set_iter_NoDup|].
    intros x. by rewrite set_iter_elem, elem_of_app, Hfs.
  - unfold drop_candidates. simpl. intros features Hd Hne ->.
    destruct (function_calls rp _) as [fs|]; [|done].
    injection Hd as Hd.
    destruct (rp_input_variables rp) as [|x xs]; [done|].
    assert (x ∈ o ((x :: xs) ++ fs)) as Hin by (apply set_iter_elem; by left).
    rewrite Hd in Hin. by apply elem_of_nil in Hin.
Qed.

(** ** The parameters of a run *)

Lemma foldl_insert_union (l : list (string * value)) (m : gmap string value) :
  NoDup l.*1 →
  foldl (λ app kv, <[kv.1 := kv.2]> app) m l = list_to_map l ∪ m.
Proof.
  revert m. induction l as [|[k v] l IH]; intros m; simpl.
  - by rewrite (left_id_L ∅ (∪)).
  - intros [Hk Hl]%NoDup_cons. rewrite IH by done.
    rewrite <- insert_union_l. symmetry. apply insert_union_r.
    by apply not_elem_of_list_to_map_1.
Qed.

(** The override map is written over the parameters: the result is the
    union of the two maps, in which the override map is heard first. *)
Lemma apply_overrides_union (m ovr : gmap string value) :
  apply_overrides m ovr = ovr ∪ m.
Proof.
  unfold apply_overrides. case_bool_decide as He.
  - subst. by rewrite (left_id_L ∅ (∪)).
  - rewrite foldl_insert_union by apply NoDup_fst_map_to_list.
    by rewrite list_to_map_to_list.
Qed.

Lemma cli_fold_lookup (args : Args) (names : list string)
    (m : gmap string value) (k : string) :
  foldl (λ app_params name,
           match getattr_args args name with
           | VNone => app_params
           | val => <[name := val]> app_params
           end) m names !! k
  = if bool_decide (k ∈ names) && negb (is_None (getattr_args args k))
    then Some (getattr_args args k) else m !! k.
Proof.
  revert m. induction names as [|n names IH]; intros m; simpl; [done|].
  rewrite IH. destruct (decide (k ∈ names)) as [Hin|Hin].
  - rewrite !bool_decide_eq_true_2 by (done || by right). simpl.
    destruct (is_None (getattr_args args k)) eqn:Hk; simpl; [|done].
    destruct (decide (n = k)) as [->|Hne].
    + by destruct (getattr_args args k).
    + destruct (getattr_args args n); by rewrite ?lookup_insert_ne.
  - rewrite (bool_decide_eq_false_2 (k ∈ names)) by done. simpl.
    destruct (decide (n = k)) as [->|Hne].
    + rewrite bool_decide_eq_true_2 by by left. simpl.
      destruct (getattr_args args k); simpl; by rewrite ?lookup_insert_eq.
    + rewrite bool_decide_eq_false_2.
      * simpl. destruct (getattr_args args n); by rewrite ?lookup_insert_ne.
      * by intros [?|?]%elem_of_cons.
Qed.

(** The parameters taken from the command line: the fields of [AppParams]
    whose option is not [None]. *)
Lemma cli_params_lookup (args : Args) (k : string) :
  cli_params args !! k
  = if bool_decide (k ∈ AppParams_fields) && negb (is_None (getattr_args args k))
    then Some (getattr_args args k) else None.
Proof. unfold cli_params. by rewrite cli_fold_lookup, lookup_empty. Qed.

(** C8: the parameters [main] hands to [AppParams] are the override map
    merged over the command-line values: a key of the override map has the
    value of the override map, any other key has its command-line value,
    which for a field of [AppParams] is the value of its option when that is
    not [None].  More generally, two override maps applied one after the
    other are the single map in which the later one wins on the keys they
    share, and the order does not matter when they share no key. *)
Theorem C8_override_map_wins (args : Args) :
  apply_overrides (cli_params args) (arg_override_params args)
    = arg_override_params args ∪ cli_params args
  ∧ (∀ k v, arg_override_params args !! k = Some v →
       apply_overrides (cli_params args) (arg_override_params args) !! k
       = Some v)
  ∧ (∀ k, arg_override_params args !! k = None →
       apply_overrides (cli_params args) (arg_override_params args) !! k
       = cli_params args !! k)
  ∧ (∀ k, arg_override_params args !! k = None →
       k ∈ AppParams_fields → is_None (getattr_args args k) = false →
       apply_overrides (cli_params args) (arg_override_params args) !! k
       = Some (getattr_args args k))
  ∧ (∀ base o1 o2 : gmap string value,
       apply_overrides (apply_overrides base o1) o2
       = apply_overrides base (o2 ∪ o1))
  ∧ (∀ base o1 o2 : gmap string value, o1 ##ₘ o2 →
       apply_overrides (apply_overrides base o1) o2
       = apply_overrides (apply_overrides base o2) o1).
Proof.
  rewrite apply_overrides_union.
  split; [done|]. split; [|split; [|split; [|split]]].
  - intros k v Hk. by apply lookup_union_Some_l.
  - intros k Hk. by rewrite lookup_union_r.
  - intros k Hk Hfield Hgiven. rewrite lookup_union_r, cli_params_lookup by done.
    by rewrite bool_decide_eq_true_2, Hgiven by done.
  - intros. by rewrite !apply_overrides_union, (assoc_L (∪)).
  - intros base o1 o2 Hdisj. rewrite !apply_overrides_union, !(assoc_L (∪)).
    f_equal. symmetry. by apply map_union_comm.
Qed.

(** ** The output directories at the end of a run *)

Lemma tree_mkdir_lookup (t : @results_tree Payload) (dir : string) :
  tree_mkdir dir t !! dir = Some (default ∅ (t !! dir)).
Proof.
  unfold tree_mkdir, results_tree in *.
  destruct (t !! dir) as [files|] eqn:Ht; simpl; [done|].
  by rewrite lookup_insert_eq.
Qed.

Lemma tree_mkdir_lookup_ne (t : @results_tree Payload) (dir dir' : string) :
  dir ≠ dir' → tree_mkdir dir t !! dir' = t !! dir'.
Proof.
  intros Hne. unfold tree_mkdir, results_tree in *.
  destruct (t !! dir); [done|]. by rewrite lookup_insert_ne.
Qed.

(** One step of [ensure_nonempty_results_dirs] leaves its directory with a
    file, and every directory that had a file keeps one. *)
Lemma ensure_step_nonempty (t : @results_tree Payload) (dir : string) :
  nonempty_dir (ensure_nonempty_results_dirs [dir] t) dir.
Proof.
  unfold ensure_nonempty_results_dirs, nonempty_dir. simpl.
  rewrite tree_mkdir_lookup. case_bool_decide as He.
  - unfold tree_write. rewrite tree_mkdir_lookup, He.
    unfold results_tree in *. rewrite lookup_insert_eq.
    eexists. split; [done|]. apply insert_non_empty.
  - rewrite tree_mkdir_lookup. eauto.
Qed.

Lemma ensure_step_keeps (t : @results_tree Payload) (dir dir' : string) :
  nonempty_dir t dir' →
  nonempty_dir (ensure_nonempty_results_dirs [dir] t) dir'.
Proof.
  destruct (decide (dir = dir')) as [<-|Hne]; [intros _; apply ensure_step_nonempty|].
  intros (files & Hf & Hne'). exists files. split; [|done].
  unfold ensure_nonempty_results_dirs. simpl.
  destruct (tree_mkdir dir t !! dir) as [fs|] eqn:Hd;
    [|by rewrite tree_mkdir_lookup_ne].
  case_bool_decide; [|by rewrite tree_mkdir_lookup_ne].
  unfold tree_write. rewrite Hd. unfold results_tree in *.
  rewrite lookup_insert_ne by done. by rewrite tree_mkdir_lookup_ne.
Qed.

Lemma ensure_nonempty_snoc (t : @results_tree Payload) (dirs : list string)
    (dir : string) :
  ensure_nonempty_results_dirs (dirs ++ [dir]) t
  = ensure_nonempty_results_dirs [dir] (ensure_nonempty_results_dirs dirs t).
Proof. unfold ensure_nonempty_results_dirs. by rewrite foldl_app. Qed.

Lemma ensure_nonempty_results_dirs_spec (t : @results_tree Payload)
    (dirs : list string) (dir : string) :
  dir ∈ dirs → nonempty_dir (ensure_nonempty_results_dirs dirs t) dir.
Proof.
  induction dirs as [|d dirs IH] using rev_ind; [by intros ?%elem_of_nil|].
  rewrite ensure_nonempty_snoc.
  intros [Hin|Hin%list_elem_of_singleton]%elem_of_app.
  - by apply ensure_step_keeps, IH.
  - subst. apply ensure_step_nonempty.
Qed.

(** A run of [main] that reaches its end has called
    [ensure_nonempty_results_dirs] last. *)
Lemma main_Ok_trace (o : set_order) (args : Args) :
  outcome (main o args) = Ok tt →
  ∃ evs, trace (main o args) = evs ++ [EvEnsureNonempty results_dirs].
Proof.
  unfold main.
  destruct (query_session_ids _) as [ids|e]; simpl; [|done].
  match goal with |- context [bind ?stage _] => destruct stage as [t [ids'|e]] end;
    simpl; [|done].
  destruct (run_sessions o _ _ ids') as [t' [[]|e]]; simpl; [|done].
  intros _. exists (t ++ t'). by rewrite <- (assoc_L (++)).
Qed.

(** Both output directories then exist and hold a file, whatever the
    sessions did. *)
Lemma main_Ok_nonempty (o : set_order) (args : Args)
    (t0 : @results_tree Payload) (dir : string) :
  outcome (main o args) = Ok tt →
  dir ∈ results_dirs →
  nonempty_dir (tree_after t0 (trace (main o args))) dir.
Proof.
  intros [evs ->]%main_Ok_trace Hdir. unfold tree_after. rewrite foldl_app.
  change (foldl apply_event ?t [EvEnsureNonempty ?dirs])
    with (ensure_nonempty_results_dirs dirs t).
  by apply ensure_nonempty_results_dirs_spec.
Qed.

(** A session id given on the command line that the filtered session table
    does not have ends the run at once, by [exit()]: nothing was done, and
    [ensure_nonempty_results_dirs] is not reached. *)
Lemma main_unknown_session (o : set_order) (args : Args) (sid : string)
    (ids : list string) :
  query_session_ids (arg_session_table_query args) = Ok ids →
  arg_session_id args = Some sid →
  sid ∉ ids →
  main o args = ([], Raise SystemExit).
Proof.
  intros Hq Hs Hn. unfold main. rewrite Hq, Hs. simpl.
  by rewrite bool_decide_eq_false_2 by done.
Qed.

End Properties.

(** * Further properties of the code *)

(** ** Group tokens and the weights they retain *)

Lemma group_token_no_underscore (w : string) :
  has_underscore (group_token w) = false.
Proof.
  induction w as [|c w IH]; simpl; [done|].
  destruct (Ascii.eqb c "_") eqn:Hc; simpl; [done|]. by rewrite Hc.
Qed.

Lemma group_token_id (w : string) :
  has_underscore w = false → group_token w = w.
Proof.
  induction w as [|c w IH]; simpl; [done|].
  destruct (Ascii.eqb c "_"); simpl; [done|]. intros Hw. by rewrite IH.
Qed.

Lemma group_token_prefix (k rest : string) :
  has_underscore k = false → group_token (k +:+ "_" +:+ rest) = k.
Proof.
  induction k as [|c k IH]; simpl; [done|].
  destruct (Ascii.eqb c "_"); simpl; [done|]. intros Hk. by rewrite IH.
Qed.

(** X1: the group token of a weight is its prefix before the first
    underscore: it holds no underscore, a weight named [k_rest] with [k]
    free of underscores has the token [k], a weight without an underscore is
    its own token, and taking the token twice changes nothing. *)
Theorem X1_group_token_is_first_field (w : string) :
  has_underscore (group_token w) = false
  ∧ group_token (group_token w) = group_token w
  ∧ (has_underscore w = false → group_token w = w)
  ∧ (∀ k rest, w = k +:+ "_" +:+ rest → has_underscore k = false →
               group_token w = k).
Proof.
  split; [apply group_token_no_underscore|].
  split; [apply group_token_id, group_token_no_underscore|].
  split; [apply group_token_id|].
  intros k rest -> Hk. by apply group_token_prefix.
Qed.

(** X2: a kernel whose key holds an underscore never retains a weight: no
    retained weight has that key for group token, and a kernel map with
    such keys only retains no weight at all, whatever the design matrix. *)
Theorem X2_underscore_key_retains_nothing (dm : DesignMatrix) (rp : RunParams)
    (k : string) :
  has_underscore k = true →
  (∀ w, w ∈ filtered_weights dm rp → group_token w ≠ k)
  ∧ ((∀ key, key ∈ dom (kernels rp) → has_underscore key = true) →
     filtered_weights dm rp = []).
Proof.
  intros Hk. split.
  - intros w _ Heq. by rewrite <- Heq, group_token_no_underscore in Hk.
  - intros Hall. unfold filtered_weights.
    induction (weights dm) as [|w ws IH]; [done|].
    rewrite filter_cons. destruct (decide _) as [Hin|]; [|done].
    apply Hall in Hin. by rewrite group_token_no_underscore in Hin.
Qed.

(** X3: the retained weights depend on the keys of the kernel map only, and
    grow with them: they are always a sublist of the weights of the design
    matrix, in their order and without a new repetition, and the weights
    retained under a smaller set of keys are a sublist of those retained
    under a larger one. *)
Theorem X3_retained_weights_grow_with_keys (dm : DesignMatrix)
    (rp1 rp2 : RunParams) :
  dom (kernels rp1) ⊆ dom (kernels rp2) →
  sublist (filtered_weights dm rp1) (filtered_weights dm rp2)
  ∧ sublist (filtered_weights dm rp2) (weights dm)
  ∧ (NoDup (weights dm) → NoDup (filtered_weights dm rp1))
  ∧ (dom (kernels rp2) ⊆ dom (kernels rp1) →
     filtered_weights dm rp1 = filtered_weights dm rp2).
Proof.
  intros Hsub. unfold filtered_weights.
  split; [|split; [apply sublist_filter|split; [apply NoDup_filter|]]].
  - induction (weights dm) as [|w ws IH]; [done|].
    rewrite !filter_cons.
    destruct (decide (group_token w ∈ dom (kernels rp1))) as [H1|H1].
    + rewrite decide_True by by apply Hsub. by apply sublist_skip.
    + destruct (decide _); [by apply sublist_cons|done].
  - intros Hsup. apply list_filter_iff. intros w. split; [apply Hsub|apply Hsup].
Qed.

(** ** The features to drop: requests and missing kernels *)

(** X5: a non-empty list of requested features is taken as it is, every
    name once: the input variables and the kernels of the full model are not
    looked at, so that a name that is no input variable is a feature to drop
    like any other. *)
Theorem X5_requested_features_are_taken (o : set_order) (l : list string)
    (rp : RunParams) :
  l ≠ [] →
  ∃ features,
    drop_candidates o (VList l) rp = Ok features
    ∧ NoDup features
    ∧ ∀ x, x ∈ features ↔ x ∈ l.
Proof.
  intros Hl. unfold drop_candidates. simpl.
  rewrite bool_decide_eq_false_2 by done. simpl.
  eexists. split; [done|]. split; [apply set_iter_NoDup|].
  intros x. apply set_iter_elem.
Qed.

Lemma function_calls_KeyError (rp : RunParams) (pre post : list string)
    (k : string) :
  (∀ x, x ∈ pre → is_Some (kernels rp !! x)) →
  kernels rp !! k = None →
  function_calls rp (pre ++ k :: post) = Raise (KeyError k).
Proof.
  intros Hpre Hk. induction pre as [|x pre IH]; simpl.
  - by rewrite Hk.
  - destruct (Hpre x) as [ker ->]; [by left|].
    rewrite IH; [done|]. intros y Hy. apply Hpre. by right.
Qed.

(** X6: when the features are derived (the requested value is false) and an
    input variable of the full model has no kernel, the derivation raises
    the [KeyError] of the first such variable, and no feature is dropped. *)
Theorem X6_missing_kernel_is_a_KeyError (o : set_order) (requested : value)
    (rp : RunParams) (pre post : list string) (k : string) :
  truthy requested = false →
  rp_input_variables rp = pre ++ k :: post →
  (∀ x, x ∈ pre → is_Some (kernels rp !! x)) →
  kernels rp !! k = None →
  drop_candidates o requested rp = Raise (KeyError k).
Proof.
  intros Hreq Hiv Hpre Hk. unfold drop_candidates.
  by rewrite Hreq, Hiv, (function_calls_KeyError rp pre post k Hpre Hk).
Qed.

(** ** The fields of the parameters *)

(** X7: the parameters are rebuilt from their own dict: without the
    ['session_id'] entry, which the call gives by itself, the entries of
    [asdict] are accepted as keywords and give the same parameters back. *)
Theorem X7_AppParams_from_its_dict (p : AppParams) :
  (asdict p).*1 = AppParams_fields
  ∧ AppParams_init (session_id p) (delete "session_id" (list_to_map (asdict p)))
    = Ok p.
Proof. destruct p. split; [done|]. by vm_compute. Qed.

Lemma elem_of_AppParams_of (sid : string) (kw : gmap string value)
    (k : string) (v : value) :
  k ∈ AppParams_fields → k ≠ "session_id" → kw !! k = Some v →
  (k, v) ∈ asdict (AppParams_of sid kw).
Proof.
  intros Hin Hne Hk. unfold AppParams_fields in Hin.
  repeat (apply elem_of_cons in Hin as [->|Hin]); try done;
    try (by apply elem_of_nil in Hin);
    apply list_elem_of_In; unfold asdict, AppParams_of; simpl; rewrite Hk;
    simpl; repeat (first [left; reflexivity | right]).
Qed.

(** X8: [AppParams] refuses a ['session_id'] keyword and any keyword that is
    no field, with a [TypeError]; all other keyword maps are accepted, the
    session id is the one of the call, and every keyword is the value of its
    field. *)
Theorem X8_AppParams_keywords (sid : string) (kw : gmap string value) :
  ("session_id" ∈ dom kw → AppParams_init sid kw = Raise TypeError)
  ∧ (∀ k, k ∈ dom kw → k ∉ AppParams_fields →
          AppParams_init sid kw = Raise TypeError)
  ∧ ("session_id" ∉ dom kw → (∀ k, k ∈ dom kw → k ∈ AppParams_fields) →
     ∃ p, AppParams_init sid kw = Ok p
          ∧ session_id p = sid
          ∧ ∀ k v, kw !! k = Some v → (k, v) ∈ asdict p).
Proof.
  unfold AppParams_init. split; [|split].
  - intros Hs. by rewrite bool_decide_eq_true_2.
  - intros k Hk Hn. case_bool_decide; [done|].
    rewrite bool_decide_eq_false_2; [done|].
    intros Hsub. apply Hn. apply Hsub in Hk. by apply elem_of_list_to_set in Hk.
  - intros Hs Hall. rewrite bool_decide_eq_false_2 by done.
    rewrite bool_decide_eq_true_2.
    + eexists. split; [done|]. split; [done|]. intros k v Hk.
      assert (k ∈ dom kw) as Hd by (apply elem_of_dom; eauto).
      apply elem_of_AppParams_of; [by apply Hall| |done]. by intros ->.
    + intros k Hk. apply elem_of_list_to_set. by apply Hall.
Qed.

(** ** The names of the artifacts *)

Lemma list_ascii_of_string_app (a b : string) :
  Strings.String.list_ascii_of_string (a +:+ b)
  = Strings.String.list_ascii_of_string a
    ++ Strings.String.list_ascii_of_string b.
Proof. induction a as [|c a IH]; simpl; [done|]. by rewrite IH. Qed.

Lemma string_app_inj_r (a b s : string) : a +:+ s = b +:+ s → a = b.
Proof.
  intros Heq.
  rewrite <- (Strings.String.string_of_list_ascii_of_string a),
    <- (Strings.String.string_of_list_ascii_of_string b).
  f_equal. apply (f_equal Strings.String.list_ascii_of_string) in Heq.
  rewrite !list_ascii_of_string_app in Heq. by apply app_inv_tail in Heq.
Qed.

Lemma string_app_inj_l (s a b : string) : s +:+ a = s +:+ b → a = b.
Proof. induction s as [|c s IH]; simpl; [done|]. intros [= ?]. by apply IH. Qed.

Lemma string_app_assoc (a b c : string) : (a +:+ b) +:+ c = a +:+ (b +:+ c).
Proof.
  induction a as [|x a IH]; [done|].
  change ((String x a +:+ b) +:+ c) with (String x ((a +:+ b) +:+ c)).
  change (String x a +:+ b +:+ c) with (String x (a +:+ b +:+ c)).
  by rewrite IH.
Qed.

(** X9: the file name of an artifact tells the model labels of a session
    apart, and the sessions of a model label; and it tells the pair apart
    when the session ids hold no underscore.  With an underscore in the
    session id it does not: the session [s_t] with the label [l], and the
    session [s] with the label [t_l], have the same file name. *)
Theorem X9_artifact_names (s1 s2 l1 l2 : string) :
  (artifact_name s1 l1 = artifact_name s1 l2 → l1 = l2)
  ∧ (artifact_name s1 l1 = artifact_name s2 l1 → s1 = s2)
  ∧ (has_underscore s1 = false → has_underscore s2 = false →
     artifact_name s1 l1 = artifact_name s2 l2 → s1 = s2 ∧ l1 = l2)
  ∧ artifact_name (s1 +:+ "_" +:+ s2) l1 = artifact_name s1 (s2 +:+ "_" +:+ l1).
Proof.
  unfold artifact_name. split; [|split; [|split]].
  - intros Heq. apply string_app_inj_l in Heq.
    apply (string_app_inj_l "_") in Heq. by apply string_app_inj_r in Heq.
  - intros Heq. by apply string_app_inj_r in Heq.
  - intros H1 H2 Heq.
    assert (s1 = s2) as ->.
    { rewrite <- (group_token_prefix s1 (l1 +:+ "_inputs.pkl") H1),
        <- (group_token_prefix s2 (l2 +:+ "_inputs.pkl") H2).
      by rewrite Heq. }
    split; [done|]. apply string_app_inj_l in Heq.
    apply (string_app_inj_l "_") in Heq. by apply string_app_inj_r in Heq.
  - by rewrite !string_app_assoc.
Qed.

Section Sessions.

Context {Session UnitsTable Payload : Type}.
Context `{!@Collaborators Session UnitsTable Payload}.

Local Abbreviation M := (@M Payload).
Local Abbreviation Fit := (@Fit Payload).
Local Abbreviation event := (@event Payload).

(** ** What a session writes *)

(** A session that does anything starts by making the two directories. *)
Lemma process_session_starts (o : set_order) (sid : string) (p : AppParams)
    (test : Z) :
  trace (process_session o sid p test) = []
  ∨ ∃ evs, trace (process_session o sid p test)
           = EvMkdir "/results/full" :: EvMkdir "/results/reduced" :: evs.
Proof.
  unfold process_session.
  destruct (get_nwb sid) as [session|e]; [|left; by destruct e].
  right. unfold mkdir. rewrite !bind_emit. simpl. eauto.
Qed.

(** The artifact an iteration writes in an output directory. *)
Lemma dropout_feature_write (sid : string) (p : AppParams) (dm : DesignMatrix)
    (fit_record : Fit) (rp : RunParams) (f dir name : string) (a : Artifact) :
  EvWrite dir name a ∈ trace (dropout_feature sid p dm fit_record rp f) →
  ∃ label,
    (dir = "/results/full" ∨ dir = "/results/reduced")
    ∧ has_slash name = false
    ∧ file a = dir +:+ "/" +:+ name
    ∧ file a = path_join (output_dirs "reduced") (artifact_name sid label)
    ∧ (has_slash (artifact_name sid label) = false →
       dir = output_dirs "reduced" ∧ name = artifact_name sid label).
Proof.
  intros Hev.
  apply dropout_feature_event in Hev as [_ [?|(rp' & selected & _ & _ & Hev)]];
    [done|].
  apply (write_bytes_in_output_dir "reduced") in Hev
    as (-> & Hd & Hn & Hstr & Hplain); [|by right].
  exists (model_label rp'). by rewrite <- Hstr.
Qed.

(** X10: every file a session writes in an output directory lies right in
    [/results/full] or in [/results/reduced], a directory the session has
    made before, under a name without a ['/'], and the artifact in it
    records the path it is written at: the path made of the output
    directory of its kind and [<session id>_<label>_inputs.pkl].  When that
    name holds no ['/'], the file is in the directory of its kind, under
    that name. *)
Theorem X10_session_files (o : set_order) (sid : string) (p : AppParams)
    (test : Z) (dir name : string) (a : Artifact) :
  EvWrite dir name a ∈ trace (process_session o sid p test) →
  (dir = "/results/full" ∨ dir = "/results/reduced")
  ∧ has_slash name = false
  ∧ file a = dir +:+ "/" +:+ name
  ∧ (∃ sub label,
       (sub = "full" ∨ sub = "reduced")
       ∧ file a = path_join (output_dirs sub) (artifact_name sid label)
       ∧ (has_slash (artifact_name sid label) = false →
          dir = output_dirs sub ∧ name = artifact_name sid label))
  ∧ ∃ evs, trace (process_session o sid p test)
           = EvMkdir "/results/full" :: EvMkdir "/results/reduced" :: evs
           ∧ EvWrite dir name a ∈ evs.
Proof.
  intros Hev.
  assert (∃ evs, trace (process_session o sid p test)
            = EvMkdir "/results/full" :: EvMkdir "/results/reduced" :: evs
            ∧ EvWrite dir name a ∈ evs) as Hstart.
  { destruct (process_session_starts o sid p test) as [Hnil|[evs Hevs]].
    - rewrite Hnil in Hev. by apply elem_of_nil in Hev.
    - exists evs. split; [done|]. rewrite Hevs in Hev.
      apply elem_of_cons in Hev as [?|Hev]; [done|].
      by apply elem_of_cons in Hev as [?|Hev]. }
  cut ((dir = "/results/full" ∨ dir = "/results/reduced")
       ∧ has_slash name = false
       ∧ file a = dir +:+ "/" +:+ name
       ∧ (∃ sub label,
            (sub = "full" ∨ sub = "reduced")
            ∧ file a = path_join (output_dirs sub) (artifact_name sid label)
            ∧ (has_slash (artifact_name sid label) = false →
               dir = output_dirs sub ∧ name = artifact_name sid label)));
    [tauto|]. clear Hstart.
  unfold process_session in Hev.
  destruct (get_nwb sid) as [session|e];
    [|destruct e; by apply elem_of_nil in Hev].
  unfold mkdir, validate in Hev.
  repeat match type of Hev with
  | _ ∈ trace (bind _ _) =>
      apply elem_of_trace_bind in Hev as [Hev|(? & _ & Hev)]
  | _ ∈ trace (emit _) => by apply list_elem_of_singleton in Hev
  | _ ∈ trace (lift _) => by apply elem_of_nil in Hev
  end.
  - apply (write_bytes_in_output_dir "full") in Hev
      as (-> & Hd & Hn & Hstr & Hplain); [|by left].
    split; [done|]. split; [done|]. split; [by rewrite <- Hstr|].
    eexists "full", _. split; [by left|]. by split.
  - apply for_each_event in Hev as (f & _ & Hev).
    apply dropout_feature_write in Hev as (label & ? & ? & ? & ? & ?).
    split; [done|]. split; [done|]. split; [done|].
    exists "reduced", label. split; [by right|]. by split.
Qed.

(** ** The loop over the sessions *)

(** One session of the loop, before its exceptions are caught. *)
Local Abbreviation attempt o kw test sid :=
  (bind (lift (AppParams_init sid kw)) (λ p, process_session o sid p test)).

Lemma bind_ret_tt (m : M unit) : bind m (λ _, ret tt) = m.
Proof. destruct m as [t [[]|e]]; simpl; [|done]. by rewrite (right_id_L [] (++)). Qed.

Lemma trace_try_except (m : M unit) : trace (try_except_Exception m) = trace m.
Proof. destruct m as [t [a|e]]; simpl; [done|]. by destruct (is_Exception e). Qed.

Lemma run_sessions_cons (o : set_order) (kw : gmap string value)
    (sid : string) (rest : list string) :
  run_sessions o kw 0 (sid :: rest)
  = bind (try_except_Exception (attempt o kw 0 sid))
         (λ _, run_sessions o kw 0 rest).
Proof. done. Qed.

Lemma run_sessions_app (o : set_order) (kw : gmap string value)
    (xs ys : list string) :
  run_sessions o kw 0 (xs ++ ys)
  = bind (run_sessions o kw 0 xs) (λ _, run_sessions o kw 0 ys).
Proof.
  induction xs as [|x xs IH].
  - change (run_sessions o kw 0 []) with (@ret Payload _ tt).
    by rewrite bind_ret.
  - change ((x :: xs) ++ ys) with (x :: (xs ++ ys)).
    by rewrite !run_sessions_cons, bind_assoc, IH.
Qed.

Lemma run_sessions_test_mode (o : set_order) (kw : gmap string value)
    (test : Z) (sid : string) (rest : list string) :
  test ≠ 0%Z →
  run_sessions o kw test (sid :: rest)
  = try_except_Exception (attempt o kw test sid).
Proof.
  intros Htest. simpl. rewrite bool_decide_eq_true_2 by done.
  apply bind_ret_tt.
Qed.

(** X11: in test mode the loop over the sessions ends after its first
    session, whatever became of it, a skip or a failure included: the
    sessions after it are not run. *)
Theorem X11_test_mode_runs_one_session (o : set_order)
    (kw : gmap string value) (test : Z) (sid : string) (rest : list string) :
  test ≠ 0%Z →
  run_sessions o kw test (sid :: rest)
  = try_except_Exception (attempt o kw test sid).
Proof. apply run_sessions_test_mode. Qed.

(** X12: outside the test mode, when no session ends with anything but an
    [Exception], the loop runs every session of the list, in order, and
    ends normally: a failed session does not keep the later ones from
    running. *)
Theorem X12_batch_runs_every_session (o : set_order) (kw : gmap string value)
    (ids : list string) :
  (∀ sid e, sid ∈ ids → outcome (attempt o kw 0 sid) = Raise e →
            is_Exception e = true) →
  outcome (run_sessions o kw 0 ids) = Ok tt
  ∧ trace (run_sessions o kw 0 ids)
    = ids ≫= (λ sid, trace (attempt o kw 0 sid)).
Proof.
  induction ids as [|sid ids IH]; intros Hexc; [done|].
  destruct IH as [IHo IHt]; [intros; eapply Hexc; [by right|done]|].
  rewrite run_sessions_cons.
  assert (outcome (try_except_Exception (attempt o kw 0 sid)) = Ok tt) as Htry.
  { pose proof (Hexc sid) as Hsid.
    destruct (attempt o kw 0 sid) as [t [[]|e]]; simpl in *; [done|].
    by rewrite (Hsid e) by (by left || done). }
  rewrite (bind_Ok _ _ tt Htry), trace_try_except. simpl.
  by rewrite IHo, IHt.
Qed.

(** X13: an exception that is no [Exception] (a [KeyboardInterrupt], a
    [SystemExit]) is not caught: it ends the loop over the sessions at the
    session that raised it, in the test mode or not. *)
Theorem X13_base_exception_ends_batch (o : set_order) (kw : gmap string value)
    (test : Z) (sid : string) (rest : list string) (e : exn) :
  outcome (attempt o kw test sid) = Raise e →
  is_Exception e = false →
  run_sessions o kw test (sid :: rest)
  = (trace (attempt o kw test sid), Raise e).
Proof.
  intros Hout He.
  change (run_sessions o kw test (sid :: rest))
    with (bind (try_except_Exception (attempt o kw test sid))
            (λ _, if bool_decide (test ≠ 0%Z) then ret tt
                  else run_sessions o kw test rest)).
  destruct (attempt o kw test sid) as [t r]. simpl in Hout. subst r.
  unfold try_except_Exception. by rewrite He.
Qed.

(** A session without its NWB file, or with a corrupted one, does nothing
    and raises nothing. *)
Lemma attempt_not_loaded (o : set_order) (kw : gmap string value) (test : Z)
    (sid : string) (e : exn) :
  get_nwb sid = Raise e → e = FileNotFoundError ∨ e = RecursionError →
  try_except_Exception (attempt o kw test sid) = ret tt.
Proof.
  intros Hnwb He. destruct (AppParams_init sid kw) as [p|e'] eqn:Hp; simpl.
  - unfold process_session. rewrite Hnwb. by destruct He as [-> | ->].
  - unfold AppParams_init in Hp. repeat case_bool_decide; by simplify_eq.
Qed.

(** X14: a session whose NWB file is missing or corrupted is skipped: it
    makes no directory and writes nothing, and outside the test mode the run
    of the list with it is the run of the list without it.  In the test mode
    it counts as the one session of the run. *)
Theorem X14_unloadable_session_is_skipped (o : set_order)
    (kw : gmap string value) (sid : string) (e : exn) :
  get_nwb sid = Raise e → e = FileNotFoundError ∨ e = RecursionError →
  (∀ p test, process_session o sid p test = ret tt)
  ∧ (∀ pre post,
       run_sessions o kw 0 (pre ++ sid :: post)
       = run_sessions o kw 0 (pre ++ post))
  ∧ (∀ test rest, test ≠ 0%Z → run_sessions o kw test (sid :: rest) = ret tt).
Proof.
  intros Hnwb He. split; [|split].
  - intros p test. unfold process_session. rewrite Hnwb.
    by destruct He as [-> | ->].
  - intros pre post. rewrite !run_sessions_app, run_sessions_cons.
    by rewrite (attempt_not_loaded o kw 0 sid e Hnwb He), bind_ret.
  - intros test rest Htest. rewrite run_sessions_test_mode by done.
    by apply (attempt_not_loaded o kw test sid e).
Qed.

(** Keywords [AppParams] refuses stop every session before it starts. *)
Lemma run_sessions_refused (o : set_order) (kw : gmap string value) (test : Z)
    (ids : list string) :
  (∀ sid, AppParams_init sid kw = Raise TypeError) →
  run_sessions o kw test ids = ret tt.
Proof.
  intros Hkw. induction ids as [|sid ids IH]; [done|]. simpl.
  rewrite Hkw. simpl. rewrite IH. by case_bool_decide.
Qed.

Lemma AppParams_init_refused (kw : gmap string value) :
  "session_id" ∈ dom kw ∨ (∃ k, k ∈ dom kw ∧ k ∉ AppParams_fields) →
  ∀ sid, AppParams_init sid kw = Raise TypeError.
Proof.
  intros Hkw sid. unfold AppParams_init. case_bool_decide; [done|].
  destruct Hkw as [?|(k & Hk & Hn)]; [done|].
  rewrite bool_decide_eq_false_2; [done|].
  intros Hsub. apply Hn. apply Hsub in Hk. by apply elem_of_list_to_set in Hk.
Qed.

(** X15: a run that is given [--session_id] processes nothing.  The session
    id is a field of [AppParams], so it is among the keywords as well as in
    the call, which is a [TypeError] that the loop catches: for a session of
    the table the run ends normally, having done nothing but make sure of
    the output directories. *)
Theorem X15_session_id_option_processes_nothing (o : set_order) (args : Args)
    (sid : string) (ids : list string) :
  query_session_ids (arg_session_table_query args) = Ok ids →
  arg_session_id args = Some sid →
  sid ∈ ids →
  main o args = ([EvEnsureNonempty results_dirs], Ok tt).
Proof.
  intros Hq Hs Hin. unfold main. rewrite Hq, Hs.
  change (lift (Ok ids)) with (@ret Payload _ ids). rewrite bind_ret.
  rewrite bool_decide_eq_true_2 by done. rewrite bind_ret.
  rewrite run_sessions_refused; [by rewrite bind_ret|].
  apply AppParams_init_refused. left.
  rewrite apply_overrides_union, dom_union. apply elem_of_union. right.
  apply elem_of_dom. rewrite cli_params_lookup.
  unfold getattr_args. rewrite Hs. simpl. by eexists.
Qed.

(** X16: an override map with a key that is no field of [AppParams] makes
    every session fail before it starts: whatever the sessions, the run
    makes no directory and writes no artifact; all it can do is make sure of
    the output directories at its end. *)
Theorem X16_unknown_override_processes_nothing (o : set_order) (args : Args)
    (k : string) (v : value) :
  arg_override_params args !! k = Some v →
  k ∉ AppParams_fields →
  ∀ ev, ev ∈ trace (main o args) → ev = EvEnsureNonempty results_dirs.
Proof.
  intros Hk Hn ev.
  assert (∀ ids,
            run_sessions o
              (apply_overrides (cli_params args) (arg_override_params args))
              (arg_test args) ids = ret tt) as Hrun.
  { intros ids. apply run_sessions_refused, AppParams_init_refused.
    right. exists k. split; [|done].
    rewrite apply_overrides_union, dom_union. apply elem_of_union. left.
    apply elem_of_dom. eauto. }
  unfold main. intros Hev.
  repeat match type of Hev with
  | _ ∈ trace (bind _ _) =>
      apply elem_of_trace_bind in Hev as [Hev|(? & _ & Hev)]
  | _ ∈ trace (run_sessions _ _ _ _) =>
      rewrite Hrun in Hev; by apply elem_of_nil in Hev
  | _ ∈ trace (lift _) => by apply elem_of_nil in Hev
  | _ ∈ trace (emit _) => by apply list_elem_of_singleton in Hev
  end.
  repeat case_match; by apply elem_of_nil in Hev.
Qed.

(** ** The end of a run *)

Lemma process_session_no_ensure (o : set_order) (sid : string)
    (p : AppParams) (test : Z) (dirs : list string) :
  EvEnsureNonempty dirs ∉ trace (process_session o sid p test).
Proof.
  intros Hev. unfold process_session in Hev.
  destruct (get_nwb sid) as [session|e];
    [|destruct e; by apply elem_of_nil in Hev].
  unfold mkdir, validate in Hev.
  repeat match type of Hev with
  | _ ∈ trace (bind _ _) =>
      apply elem_of_trace_bind in Hev as [Hev|(? & _ & Hev)]
  | _ ∈ trace (emit _) => by apply list_elem_of_singleton in Hev
  | _ ∈ trace (lift _) => by apply elem_of_nil in Hev
  end.
  - by apply write_bytes_event in Hev as [(? & ? & ? & _)|?].
  - apply for_each_event in Hev as (f & _ & Hev).
    apply dropout_feature_event in Hev as [_ [?|(? & ? & _ & _ & Hev)]];
      [done|].
    by apply write_bytes_event in Hev as [(? & ? & ? & _)|?].
Qed.

Lemma run_sessions_no_ensure (o : set_order) (kw : gmap string value)
    (test : Z) (ids : list string) (dirs : list string) :
  EvEnsureNonempty dirs ∉ trace (run_sessions o kw test ids).
Proof.
  induction ids as [|sid ids IH]; [by intros ?%elem_of_nil|].
  change (run_sessions o kw test (sid :: ids))
    with (bind (try_except_Exception (attempt o kw test sid))
            (λ _, if bool_decide (test ≠ 0%Z) then ret tt
                  else run_sessions o kw test ids)).
  intros [Hev|(_ & _ & Hev)]%elem_of_trace_bind.
  - rewrite trace_try_except in Hev.
    apply elem_of_trace_bind in Hev as [Hev|(p & _ & Hev)].
    + by apply elem_of_nil in Hev.
    + by apply process_session_no_ensure in Hev.
  - case_bool_decide; [by apply elem_of_nil in Hev|by apply IH].
Qed.

(** A run of [main] ends with an exception, or with the call that makes
    sure of the output directories; nothing before is such a call. *)
Lemma main_cases (o : set_order) (args : Args) :
  ∃ evs, (∀ dirs, EvEnsureNonempty dirs ∉ evs)
         ∧ ((∃ e, main o args = (evs, Raise e))
            ∨ main o args = (evs ++ [EvEnsureNonempty results_dirs], Ok tt)).
Proof.
  unfold main.
  destruct (query_session_ids _) as [ids|e]; simpl;
    [|exists []; split; [intros dirs ?%elem_of_nil; done|left; eauto]].
  match goal with
  | |- context [bind ?stage _] =>
      assert (trace stage = []) as Hstage by (by repeat case_match);
      destruct stage as [t [ids'|e]]
  end; simpl in *; subst t;
    [|exists []; split; [intros dirs ?%elem_of_nil; done|left; eauto]].
  match goal with
  | |- context [run_sessions o ?kw ?test ids'] =>
      pose proof (run_sessions_no_ensure o kw test ids') as Hno;
      destruct (run_sessions o kw test ids') as [t' [[]|e]]
  end; simpl in *; exists t'; (split; [done|]); [by right|left; eauto].
Qed.

(** X17: [main] makes sure of the output directories exactly in the runs
    that end normally, and then as the last thing it does.  A run that ends
    with an exception (a requested session that the table does not have, a
    failed assertion, a session table that cannot be read, an interrupted
    session) never calls [ensure_nonempty_results_dirs]. *)
Theorem X17_directories_ensured_iff_normal_end (o : set_order) (args : Args) :
  (outcome (main o args) = Ok tt
   ↔ ∃ dirs, EvEnsureNonempty dirs ∈ trace (main o args))
  ∧ (outcome (main o args) = Ok tt →
     ∃ evs, trace (main o args) = evs ++ [EvEnsureNonempty results_dirs]
            ∧ ∀ dirs, EvEnsureNonempty dirs ∉ evs).
Proof.
  destruct (main_cases o args) as (evs & Hno & [[e ->]| ->]); simpl.
  - split; [|done]. split; [done|]. intros [dirs Hin]. by apply Hno in Hin.
  - split; [|eauto]. split; [|done]. intros _. exists results_dirs.
    apply elem_of_app. right. by left.
Qed.

(** X18: in a pipeline, without [--session_id], [main] never processes two
    sessions: when two different sessions of the filtered table have an NWB
    file, the assertion fails before any session is run, whatever the order
    of the set. *)
Theorem X18_pipeline_asserts_one_session (o : set_order) (args : Args)
    (ids : list string) (a b : string) :
  is_pipeline = true →
  arg_session_id args = None →
  query_session_ids (arg_session_table_query args) = Ok ids →
  a ≠ b → a ∈ ids → b ∈ ids → a ∈ nwb_stems → b ∈ nwb_stems →
  main o args = ([], Raise AssertionError).
Proof.
  intros Hp Hs Hq Hab Ha Hb Has Hbs. unfold main. rewrite Hq, Hs, Hp.
  change (lift (Ok ids)) with (@ret Payload _ ids). rewrite bind_ret.
  rewrite bool_decide_eq_false_2; [done|].
  set (both := o (filter (λ s, s ∈ nwb_stems) ids)).
  assert (a ∈ both) as Ha'
    by (apply set_iter_elem, list_elem_of_filter; by split).
  assert (b ∈ both) as Hb'
    by (apply set_iter_elem, list_elem_of_filter; by split).
  intros Hlen. destruct both as [|x [|y both]].
  - by apply elem_of_nil in Ha'.
  - apply list_elem_of_singleton in Ha', Hb'. congruence.
  - simpl in Hlen. lia.
Qed.

(** ** What the artifacts of a session hold *)






(** ** The test mode *)


End Sessions.

(** * The properties at work, in the worlds of [Demo] *)

Import Demo.

(** A decidable proposition that evaluates to true holds. *)
Local Ltac by_evaluation :=
  apply (bool_decide_unpack _); vm_compute; exact I.

(** ** Session S1: the scenario of the specification *)

Local Abbreviation S1_run :=
  (process_session (H := S1_world) last_seen_order "S1" S1_params 0).



(** C2: the code writes the parameters of the full model into every reduced
    artifact.  In session S1 the artifact of [drop_running_speed] holds the
    parameters labelled [fullmodel], with both input variables, and not the
    parameters resolved for the feature, which are labelled
    [drop_running_speed] and have licks alone. *)
Theorem C2_reduced_artifact_holds_full_params :
  get_params (Collaborators := S1_world)
    (reduced_io_params "S1" S1_params "running_speed")
  = Ok (demo_run_params (reduced_io_params "S1" S1_params "running_speed"))
  ∧ model_label
      (demo_run_params (reduced_io_params "S1" S1_params "running_speed"))
    = "drop_running_speed"
  ∧ rp_input_variables
      (demo_run_params (reduced_io_params "S1" S1_params "running_speed"))
    = ["licks"]
  ∧ (model_label ∘ run_params)
      <$> artifact_at (tree_after ∅ (trace S1_run))
            "/results/reduced" "S1_drop_running_speed_inputs.pkl"
    = Some "fullmodel"
  ∧ (rp_input_variables ∘ run_params)
      <$> artifact_at (tree_after ∅ (trace S1_run))
            "/results/reduced" "S1_drop_running_speed_inputs.pkl"
    = Some ["licks"; "running_speed"].
Proof. repeat split; by vm_compute. Qed.

(** C4: asked for a session the filtered table does not have, [main] leaves
    by [exit()] before anything else: on a fresh results tree neither output
    directory exists at the end. *)
Theorem C4_unknown_session_leaves_no_directory :
  main (H := S1_world) last_seen_order (one_session "S9")
    = ([], Raise SystemExit)
  ∧ ¬ nonempty_dir
        (tree_after ∅
           (trace (main (H := S1_world) last_seen_order (one_session "S9"))))
        "/results/full"
  ∧ ¬ nonempty_dir
        (tree_after ∅
           (trace (main (H := S1_world) last_seen_order (one_session "S9"))))
        "/results/reduced".
Proof.
  assert (main (H := S1_world) last_seen_order (one_session "S9")
          = ([], Raise SystemExit)) as Hmain.
  { apply (main_unknown_session _ _ "S9" ["S1"]); [done|done|by_evaluation]. }
  rewrite Hmain. split; [done|].
  split; intros (files & Hf & _); vm_compute in Hf; discriminate Hf.
Qed.

(** ** Session S2: a feature that cannot be validated *)

(** The user asks for the drop of pupil, which is no input variable, and of
    licks; strict validation refuses pupil. *)
Local Abbreviation both_requested := (VList ["pupil"; "licks"]).
Local Abbreviation S2_strict_body :=
  (dropout_feature (H := S2_world true []) "S2" (S2_params both_requested)
     S2_matrix (demo_fit []) (S2_run_params both_requested)).
Local Abbreviation S2_strict_run o :=
  (process_session (H := S2_world true []) o "S2" (S2_params both_requested) 0).
Local Abbreviation S2_strict_main o :=
  (main (H := S2_world true []) o (override_only (S2_keywords both_requested))).

(** Asked for licks, pupil and running in this order, the loop writes the
    artifact of licks, raises at pupil, and does not come to running; the
    session ends with the exception, and in the test mode the loop over the
    sessions ends after it. *)
Local Abbreviation three_requested := (VList ["licks"; "pupil"; "running"]).
Local Abbreviation S2_three_body :=
  (dropout_feature (H := S2_world true []) "S2" (S2_params three_requested)
     S2_matrix (demo_fit []) (S2_run_params three_requested)).

Lemma C3_failure_ends_feature_loop_witness :
  for_each S2_three_body (["licks"] ++ "pupil" :: ["running"])
  = (trace (for_each S2_three_body ["licks"])
       ++ trace (S2_three_body "pupil"),
     Raise ValueError)
  ∧ outcome (process_session (H := S2_world true []) last_seen_order "S2"
               (S2_params three_requested) 0)
    = Raise ValueError
  ∧ run_sessions (H := S2_world true []) last_seen_order
      (S2_keywords three_requested) 1 ["S2"; "S3"]
    = (trace (bind (lift (AppParams_init "S2" (S2_keywords three_requested)))
                (λ p, process_session (H := S2_world true []) last_seen_order
                        "S2" p 1)),
       Ok tt).
Proof.
  destruct (C3_failure_ends_feature_loop (H := S2_world true []) "S2"
              (S2_params three_requested) S2_matrix (demo_fit [])
              (S2_run_params three_requested) ["licks"] ["running"] "pupil"
              ValueError)
    as (Hloop & _ & Hsession & Hmain).
  - reflexivity.
  - reflexivity.
  - split; [exact Hloop|]. split.
    + apply (Hsession last_seen_order (S2_params three_requested) 0%Z "S2" tt
               [("is_good_behavior", VBool true); ("dprime", VNum 2)]
               {| failed_kernels := list_to_set []; fit_entries := [] |}
               {| failed_kernels := list_to_set []; fit_entries := [] |}
               (VBool true) (VNum 2)); reflexivity.
    + apply (Hmain last_seen_order (S2_keywords three_requested) 1%Z "S2"
               ["S3"] ValueError); reflexivity.
Defined.

(** The claim C3 fails in session S2, when pupil comes before licks in the
    iteration: the iteration of licks would succeed, the one of pupil
    raises, and the session ends with that exception without an artifact
    for licks.  [main] goes on, and the reduced directory ends with the
    placeholder alone.  In the opposite order licks is written. *)
Lemma C3_counterexample :
  outcome (S2_strict_body "licks") = Ok tt
  ∧ outcome (S2_strict_body "pupil") = Raise ValueError
  ∧ drop_candidates last_seen_order both_requested (S2_run_params both_requested)
    = Ok ["pupil"; "licks"]
  ∧ outcome (S2_strict_run last_seen_order) = Raise ValueError
  ∧ artifact_at (tree_after ∅ (trace (S2_strict_run last_seen_order)))
      "/results/reduced" "S2_drop_licks_inputs.pkl" = None
  ∧ outcome (S2_strict_main last_seen_order) = Ok tt
  ∧ listdir (tree_after ∅ (trace (S2_strict_main last_seen_order)))
      "/results/reduced" = Some ["placeholder"]
  ∧ listdir (tree_after ∅ (trace (S2_strict_main reversed_order)))
      "/results/reduced" = Some ["S2_drop_licks_inputs.pkl"].
Proof. repeat split; by vm_compute. Qed.

(** ** Session S2: reduced models *)

Local Abbreviation S2_body requested failed :=
  (dropout_feature (H := S2_world false failed) "S2" (S2_params requested)
     S2_matrix (demo_fit failed) (S2_run_params requested)).
Local Abbreviation S2_run requested :=
  (process_session (H := S2_world false []) last_seen_order "S2"
     (S2_params requested) 0).






(** ** The features to drop, and the parameters of a run *)

Lemma C7_candidates_when_unset_witness :
  ∃ features,
    drop_candidates last_seen_order VNone stimulus_run_params = Ok features
    ∧ NoDup features
    ∧ ∀ x, x ∈ features
           ↔ x ∈ rp_input_variables stimulus_run_params
             ∨ ∃ key ker, key ∈ rp_input_variables stimulus_run_params
                          ∧ kernels stimulus_run_params !! key = Some ker
                          ∧ function_call ker = x.
Proof.
  apply (C7_candidates_when_unset last_seen_order stimulus_run_params).
  intros key Hkey. apply elem_of_cons in Hkey as [->|Hkey].
  - eexists. by vm_compute.
  - apply elem_of_cons in Hkey as [->|Hkey].
    + eexists. by vm_compute.
    + by apply elem_of_nil in Hkey.
Defined.

Lemma C8_override_map_wins_witness :
  apply_overrides (cli_params two_options) (arg_override_params two_options)
    !! "spike_bin_width" = Some (VNum 0.1)
  ∧ apply_overrides (cli_params two_options) (arg_override_params two_options)
      !! "time_of_interest" = cli_params two_options !! "time_of_interest".
Proof.
  destruct (C8_override_map_wins two_options) as (_ & Hovr & Hcli & _ & _).
  split.
  - apply Hovr. reflexivity.
  - apply Hcli. reflexivity.
Defined.

Lemma C10_empty_list_is_unset_witness :
  ∃ features,
    drop_candidates last_seen_order (VList []) stimulus_run_params = Ok features
    ∧ NoDup features
    ∧ "vis1" ∈ features ∧ "stimulus" ∈ features ∧ "licks" ∈ features.
Proof.
  destruct (C10_empty_list_is_unset last_seen_order stimulus_run_params)
    as (_ & _ & Hderived & _).
  destruct Hderived as (features & Hd & Hnd & Hin).
  - intros key Hkey. apply elem_of_cons in Hkey as [->|Hkey].
    + eexists. by vm_compute.
    + apply elem_of_cons in Hkey as [->|Hkey].
      * eexists. by vm_compute.
      * by apply elem_of_nil in Hkey.
  - exists features. split; [exact Hd|]. split; [exact Hnd|].
    split; [|split]; apply Hin.
    + left. by_evaluation.
    + right. exists "vis1", {| function_call := "stimulus" |}.
      split; [by_evaluation|]. split; reflexivity.
    + left. by_evaluation.
Defined.

(** ** Further properties at work *)

Lemma X1_group_token_is_first_field_witness :
  group_token "running_speed_0" = "running".
Proof.
  destruct (X1_group_token_is_first_field "running_speed_0")
    as (_ & _ & _ & Hprefix).
  apply (Hprefix "running" "speed_0"); reflexivity.
Defined.

Lemma X2_underscore_key_retains_nothing_witness :
  Forall (λ w, group_token w ≠ "running_speed")
    (filtered_weights S1_matrix
       (demo_run_params (reduced_io_params "S1" S1_params "licks"))).
Proof.
  apply Forall_forall.
  apply (X2_underscore_key_retains_nothing S1_matrix
           (demo_run_params (reduced_io_params "S1" S1_params "licks"))
           "running_speed").
  reflexivity.
Defined.

Lemma X3_retained_weights_grow_with_keys_witness :
  sublist
    (filtered_weights S2_matrix
       (demo_run_params (reduced_io_params "S2" (S2_params VNone) "licks")))
    (filtered_weights S2_matrix (S2_run_params VNone)).
Proof.
  apply (X3_retained_weights_grow_with_keys S2_matrix
           (demo_run_params (reduced_io_params "S2" (S2_params VNone) "licks"))
           (S2_run_params VNone)).
  by_evaluation.
Defined.


Lemma X5_requested_features_are_taken_witness :
  ∃ features,
    drop_candidates last_seen_order (VList ["pupil"; "licks"; "pupil"])
      (S2_run_params VNone) = Ok features
    ∧ NoDup features
    ∧ ∀ x, x ∈ features ↔ x ∈ ["pupil"; "licks"; "pupil"].
Proof.
  apply (X5_requested_features_are_taken last_seen_order
           ["pupil"; "licks"; "pupil"] (S2_run_params VNone)).
  discriminate.
Defined.

Lemma X6_missing_kernel_is_a_KeyError_witness :
  drop_candidates last_seen_order (VList []) broken_run_params
  = Raise (KeyError "pupil").
Proof.
  apply (X6_missing_kernel_is_a_KeyError last_seen_order (VList [])
           broken_run_params ["licks"] ["running"] "pupil").
  - reflexivity.
  - reflexivity.
  - intros x Hx. apply list_elem_of_singleton in Hx as ->.
    eexists. by vm_compute.
  - by vm_compute.
Defined.

Lemma X8_AppParams_keywords_witness :
  AppParams_init "S1" {[ "session_id" := VStr "S1" ]} = Raise TypeError.
Proof.
  destruct (X8_AppParams_keywords "S1" {[ "session_id" := VStr "S1" ]})
    as (Hsid & _).
  apply Hsid. by_evaluation.
Defined.

Lemma X9_artifact_names_witness :
  "S1" = "S1" ∧ "drop_licks" = "drop_licks".
Proof.
  destruct (X9_artifact_names "S1" "S1" "drop_licks" "drop_licks")
    as (_ & _ & Hpair & _).
  apply Hpair; reflexivity.
Defined.

Lemma X10_session_files_witness :
  ∃ a, EvWrite "/results/reduced" "S1_drop_licks_inputs.pkl" a ∈ trace S1_run
       ∧ has_slash "S1_drop_licks_inputs.pkl" = false
       ∧ file a = "/results/reduced" +:+ "/" +:+ "S1_drop_licks_inputs.pkl".
Proof.
  assert (∃ a, EvWrite "/results/reduced" "S1_drop_licks_inputs.pkl" a
               ∈ trace S1_run) as [a Hin].
  { eexists. vm_compute. do 5 apply list_elem_of_further.
    apply list_elem_of_here. }
  exists a. split; [exact Hin|].
  destruct (X10_session_files (H := S1_world) last_seen_order "S1" S1_params 0
              "/results/reduced" "S1_drop_licks_inputs.pkl" a Hin)
    as (_ & Hname & Hfile & _).
  split; [exact Hname | exact Hfile].
Defined.

Lemma X11_test_mode_runs_one_session_witness :
  run_sessions (H := two_sessions_world) last_seen_order (S2_keywords VNone)
    1 ["S2"; "S3"]
  = try_except_Exception
      (bind (lift (AppParams_init "S2" (S2_keywords VNone)))
         (λ p, process_session (H := two_sessions_world) last_seen_order
                 "S2" p 1)).
Proof.
  apply (X11_test_mode_runs_one_session (H := two_sessions_world)
           last_seen_order (S2_keywords VNone) 1 "S2" ["S3"]).
  discriminate.
Defined.

(** Both sessions fail at the validation of pupil, and both are run. *)
Lemma X12_batch_runs_every_session_witness :
  outcome (run_sessions (H := world true S2_matrix [] ["S2"; "S3"])
             last_seen_order (S2_keywords both_requested) 0 ["S2"; "S3"])
  = Ok tt.
Proof.
  apply (X12_batch_runs_every_session
           (H := world true S2_matrix [] ["S2"; "S3"]) last_seen_order
           (S2_keywords both_requested) ["S2"; "S3"]).
  intros sid e Hsid Hout.
  apply elem_of_cons in Hsid as [->|Hsid].
  - vm_compute in Hout. by injection Hout as <-.
  - apply list_elem_of_singleton in Hsid as ->.
    vm_compute in Hout. by injection Hout as <-.
Defined.

Lemma X13_base_exception_ends_batch_witness :
  run_sessions (H := interrupted_at two_sessions_world ["S2"]) last_seen_order
    (S2_keywords VNone) 0 ["S2"; "S3"]
  = ([], Raise KeyboardInterrupt).
Proof.
  apply (X13_base_exception_ends_batch
           (H := interrupted_at two_sessions_world ["S2"]) last_seen_order
           (S2_keywords VNone) 0 "S2" ["S3"] KeyboardInterrupt).
  - reflexivity.
  - reflexivity.
Defined.

Lemma X14_unloadable_session_is_skipped_witness :
  run_sessions (H := without_files two_sessions_world ["S2"]) last_seen_order
    (S2_keywords VNone) 0 ([] ++ "S2" :: ["S3"])
  = run_sessions (H := without_files two_sessions_world ["S2"]) last_seen_order
      (S2_keywords VNone) 0 ([] ++ ["S3"]).
Proof.
  destruct (X14_unloadable_session_is_skipped
              (H := without_files two_sessions_world ["S2"]) last_seen_order
              (S2_keywords VNone) "S2" FileNotFoundError)
    as (_ & Hskip & _).
  - reflexivity.
  - by left.
  - apply (Hskip [] ["S3"]).
Defined.

Lemma X15_session_id_option_processes_nothing_witness :
  main (H := S1_world) last_seen_order (one_session "S1")
  = ([EvEnsureNonempty results_dirs], Ok tt).
Proof.
  apply (X15_session_id_option_processes_nothing (H := S1_world)
           last_seen_order (one_session "S1") "S1" ["S1"]).
  - reflexivity.
  - reflexivity.
  - by_evaluation.
Defined.

Lemma X16_unknown_override_processes_nothing_witness :
  Forall (λ ev, ev = EvEnsureNonempty results_dirs)
    (trace (main (H := S1_world) last_seen_order
              (override_only {[ "bin_width" := VNum 0.5 ]}))).
Proof.
  apply Forall_forall.
  apply (X16_unknown_override_processes_nothing (H := S1_world)
           last_seen_order (override_only {[ "bin_width" := VNum 0.5 ]})
           "bin_width" (VNum 0.5)).
  - by vm_compute.
  - by_evaluation.
Defined.

Lemma X17_directories_ensured_iff_normal_end_witness :
  ∃ evs, trace (main (H := S1_world) last_seen_order (override_only S1_keywords))
         = evs ++ [EvEnsureNonempty results_dirs]
         ∧ ∀ dirs, EvEnsureNonempty dirs ∉ evs.
Proof.
  destruct (X17_directories_ensured_iff_normal_end (H := S1_world)
              last_seen_order (override_only S1_keywords)) as (_ & Hend).
  apply Hend. by vm_compute.
Defined.

Lemma X18_pipeline_asserts_one_session_witness :
  main (H := in_pipeline two_sessions_world ["S3"; "S2"]) last_seen_order
    (override_only (S2_keywords VNone))
  = ([], Raise AssertionError).
Proof.
  apply (X18_pipeline_asserts_one_session
           (H := in_pipeline two_sessions_world ["S3"; "S2"]) last_seen_order
           (override_only (S2_keywords VNone)) ["S2"; "S3"] "S2" "S3").
  - reflexivity.
  - reflexivity.
  - reflexivity.
  - discriminate.
  - by_evaluation.
  - by_evaluation.
  - by_evaluation.
  - by_evaluation.
Defined.



